(** * Quick Paste: the paste lifecycle of [src/main.py]

    A shallow embedding of the paste service: the in-memory index
    [pastes] (a Python [dict], insertion ordered), the content files under
    [DATA_DIR/pastes], the snapshot [DATA_DIR/index.json], and the request
    handlers that act on them.

    Conventions.
    - A Python [str] is a list of Unicode code points ([pystr]); [len] counts
      code points.
    - A naive [datetime] is its number of microseconds since
      0001-01-01T00:00:00.  [isoformat] and [fromisoformat] are mutually
      inverse on such values, so a record keeps the datetime itself.
    - [write_text]/[read_text] use the locale encoding, UTF-8, on the way
      out and on the way in; the file store keeps the text that was written.
      What [read_text] adds on top is Python's universal-newline
      translation.  Text with a lone surrogate cannot be encoded:
      [write_text] then raises [UnicodeEncodeError], after it has created
      (or emptied) the file.
    - Apart from that, storage calls are taken to succeed (no disk
      failure). *)

From Stdlib Require Import ZArith NArith List Bool Lia String Ascii.
From stdpp Require Import base option list gmap fin_maps.
Import ListNotations.

Local Open Scope Z_scope.

(* ===================================================================== *)
(** ** Python strings *)
(* ===================================================================== *)

Definition codepoint := N.
Definition pystr := list codepoint.

(** A literal: the code points of an ASCII string. *)
Fixpoint lit (s : string) : pystr :=
  match s with
  | EmptyString => []
  | String c s' => N_of_ascii c :: lit s'
  end.

(** [len(s)] *)
Definition len (s : pystr) : Z := Z.of_nat (length s).

(** Number of bytes of the UTF-8 encoding of one code point, and of a
    string. *)
Definition utf8_width (c : codepoint) : Z :=
  if (c <? 0x80)%N then 1
  else if (c <? 0x800)%N then 2
  else if (c <? 0x10000)%N then 3
  else 4.

Definition utf8_len (s : pystr) : Z :=
  fold_right (fun c acc => utf8_width c + acc) 0 s.

Definition is_ascii (s : pystr) : bool :=
  forallb (fun c => (c <? 0x80)%N) s.

(** [str.isspace] on one character (CPython's [_PyUnicode_IsWhitespace]). *)
Definition isspace (c : codepoint) : bool :=
  ((0x09 <=? c) && (c <=? 0x0D) ||
   (0x1C <=? c) && (c <=? 0x20) ||
   (c =? 0x85) || (c =? 0xA0) || (c =? 0x1680) ||
   (0x2000 <=? c) && (c <=? 0x200A) ||
   (c =? 0x2028) || (c =? 0x2029) || (c =? 0x202F) ||
   (c =? 0x205F) || (c =? 0x3000))%N.

(** [str.lstrip()], [str.rstrip()], [str.strip()] *)
Fixpoint lstrip (s : pystr) : pystr :=
  match s with
  | [] => []
  | c :: t => if isspace c then lstrip t else s
  end.

Definition rstrip (s : pystr) : pystr := rev (lstrip (rev s)).

Definition strip (s : pystr) : pystr := rstrip (lstrip s).

(** Truth value of a string ([if s], [not s], [s or t]): non-empty. *)
Definition truthy (s : pystr) : bool :=
  match s with [] => false | _ => true end.

(** Text-mode reading with [newline=None] (what [Path.read_text] does):
    every ["\r\n"] and every lone ["\r"] comes back as ["\n"].  Text-mode
    writing on POSIX leaves the text as it is. *)
Definition CR : codepoint := 13%N.
Definition LF : codepoint := 10%N.

Fixpoint universal_newlines (s : pystr) : pystr :=
  match s with
  | [] => []
  | c :: t =>
      if (c =? CR)%N then
        match t with
        | c' :: t' =>
            if (c' =? LF)%N then LF :: universal_newlines t'
            else LF :: universal_newlines t
        | [] => [LF]
        end
      else c :: universal_newlines t
  end.

(** A lone surrogate (U+D800 to U+DFFF) has no UTF-8 encoding; every other
    character has one. *)
Definition is_surrogate (c : codepoint) : bool :=
  ((0xD800 <=? c) && (c <=? 0xDFFF))%N.

Definition encodable (s : pystr) : bool :=
  forallb (fun c => negb (is_surrogate c)) s.

(** Equality test on strings. *)
Definition str_eqb (a b : pystr) : bool := bool_decide (a = b).

(* ===================================================================== *)
(** ** Python dict: insertion-ordered, keys unique *)
(* ===================================================================== *)

Section Dict.
Context {V : Type}.

Definition dict := list (pystr * V).

(** [k in d] *)
Definition dict_contains (k : pystr) (d : dict) : bool :=
  existsb (fun kv => str_eqb k (fst kv)) d.

(** [d.get(k)] *)
Fixpoint dict_get (k : pystr) (d : dict) : option V :=
  match d with
  | [] => None
  | (k', v) :: t => if str_eqb k k' then Some v else dict_get k t
  end.

(** [d[k] = v]: an existing key keeps its place, a new key goes last. *)
Fixpoint dict_set (k : pystr) (v : V) (d : dict) : dict :=
  match d with
  | [] => [(k, v)]
  | (k', v') :: t =>
      if str_eqb k k' then (k', v) :: t else (k', v') :: dict_set k v t
  end.

(** [del d[k]] (callers test [k in d] first). *)
Definition dict_del (k : pystr) (d : dict) : dict :=
  List.filter (fun kv => negb (str_eqb k (fst kv))) d.

(** [d.keys()], [d.items()] *)
Definition dict_keys (d : dict) : list pystr := map fst d.
Definition dict_items (d : dict) : list (pystr * V) := d.

(** [dict(items)]: later pairs overwrite earlier ones. *)
Definition dict_of_items (l : list (pystr * V)) : dict :=
  fold_left (fun d kv => dict_set (fst kv) (snd kv) d) l [].

(** Keys are unique. *)
Definition dict_wf (d : dict) : Prop := NoDup (dict_keys d).
End Dict.

Arguments dict : clear implicits.

(** [l[:stop]] *)
Definition slice_to {A} (stop : Z) (l : list A) : list A :=
  if stop <? 0
  then firstn (Z.to_nat (Z.max (Z.of_nat (length l) + stop) 0)) l
  else firstn (Z.to_nat stop) l.

(* ===================================================================== *)
(** ** Datetimes *)
(* ===================================================================== *)

(** Microseconds since 0001-01-01T00:00:00; [datetime.max] is
    9999-12-31T23:59:59.999999. *)
Definition datetime := Z.
Definition DATETIME_MAX : datetime := 315537897599999999.
Definition TIMEDELTA_MAX_DAYS : Z := 999999999.
Definition HOUR : Z := 3600000000.

(** [timedelta(hours=h)]: [OverflowError] ([None]) when the number of days
    has magnitude above 999999999. *)
Definition timedelta_hours (h : Z) : option Z :=
  if TIMEDELTA_MAX_DAYS <? Z.abs (h / 24) then None else Some (h * HOUR).

(** [d + td]: [OverflowError] ([None]) outside [datetime.min, datetime.max]. *)
Definition datetime_add (d : datetime) (td : Z) : option datetime :=
  let r := d + td in
  if (r <? 0) || (DATETIME_MAX <? r) then None else Some r.

(* ===================================================================== *)
(** ** Configuration, records, world *)
(* ===================================================================== *)

(** The module constants read from the environment, and whether Pygments
    could be imported ([HAS_PYGMENTS]); when it could, [pygments content
    language] stands for the lexer choice and [highlight] call. *)
Record config := {
  BASE_URL : pystr;
  MAX_SIZE : Z;
  pygments : option (pystr -> option pystr -> pystr)
}.

Definition DEFAULT_EXPIRY_HOURS : Z := 24 * 7.

Definition default_config : config :=
  {| BASE_URL := lit "http://localhost:8084";
     MAX_SIZE := 500000;
     pygments := None |}.

(** The metadata dictionary stored per paste id. *)
Record meta := {
  title : option pystr;
  language : option pystr;
  created_at : datetime;
  expires_at : option datetime;
  burn_after_read : bool;
  size : Z
}.

(** Storage effects, in the order they happen. *)
Inductive event :=
| EvReadIndex
| EvWriteIndex
| EvReadContent (paste_id : pystr)
| EvWriteContent (paste_id : pystr)
| EvUnlink (paste_id : pystr).

(** The process and its data directory:
    - [pastes]: the global in-memory index;
    - [paste_files]: the files under [DATA_DIR/pastes], by name;
    - [index_file]: [DATA_DIR/index.json], as the JSON object's members in
      order, when the file exists;
    - [log]: the storage effects so far (ghost state). *)
Record world := {
  pastes : dict meta;
  paste_files : gmap pystr pystr;
  index_file : option (list (pystr * meta));
  log : list event
}.

Definition set_pastes (d : dict meta) (w : world) : world :=
  {| pastes := d; paste_files := paste_files w;
     index_file := index_file w; log := log w |}.

Definition set_paste_files (f : gmap pystr pystr) (w : world) : world :=
  {| pastes := pastes w; paste_files := f;
     index_file := index_file w; log := log w |}.

Definition set_index_file (i : option (list (pystr * meta))) (w : world) : world :=
  {| pastes := pastes w; paste_files := paste_files w;
     index_file := i; log := log w |}.

Definition emit (e : event) (w : world) : world :=
  {| pastes := pastes w; paste_files := paste_files w;
     index_file := index_file w; log := log w ++ [e] |}.

(** What a handler does: return a value, raise (an [HTTPException], or an
    exception nothing catches), or still be looping when the fuel runs
    out. *)
Inductive exn :=
| HTTPException (status_code : Z)
| OverflowError
| KeyError
| UnicodeEncodeError.

Inductive outcome (A : Type) :=
| Return (a : A) (w : world)
| Raise (e : exn) (w : world)
| Diverge.

Arguments Return {A} a w.
Arguments Raise {A} e w.
Arguments Diverge {A}.

(** The spec's names for the three client errors (the [detail] text of an
    [HTTPException] is left out: both 404s are NotFound). *)
Definition ContentTooLarge : exn := HTTPException 413.
Definition EmptyContent : exn := HTTPException 400.
Definition NotFound : exn := HTTPException 404.

(** The world a handler leaves behind, when it finishes. *)
Definition world_of {A} (o : outcome A) : option world :=
  match o with
  | Return _ w => Some w
  | Raise _ w => Some w
  | Diverge => None
  end.

(* ===================================================================== *)
(** ** Index and content store *)
(* ===================================================================== *)

(** [json.dumps(pastes)] writes the members in dict order; [json.loads]
    builds a dict from the members it reads. *)
Definition json_dumps (d : dict meta) : list (pystr * meta) := dict_items d.
Definition json_loads (l : list (pystr * meta)) : dict meta := dict_of_items l.

(** [save_index()] *)
Definition save_index (w : world) : world :=
  emit EvWriteIndex (set_index_file (Some (json_dumps (pastes w))) w).

(** [(DATA_DIR / "pastes" / k).unlink(missing_ok=True)] *)
Definition unlink (k : pystr) (w : world) : world :=
  emit (EvUnlink k) (set_paste_files (delete k (paste_files w)) w).

(** [del pastes[k]] *)
Definition del_paste (k : pystr) (w : world) : world :=
  set_pastes (dict_del k (pastes w)) w.

(** [v.get("expires_at") and datetime.fromisoformat(v["expires_at"]) < now] *)
Definition is_expired (now : datetime) (v : meta) : bool :=
  match expires_at v with
  | Some e => e <? now
  | None => false
  end.

(** The list [expired] of [load_index]: keys of the expired records. *)
Definition expired_keys (now : datetime) (d : dict meta) : list pystr :=
  map fst (List.filter (fun kv => is_expired now (snd kv)) (dict_items d)).

(** One round of the [for k in expired] loop. *)
Definition purge (w : world) (k : pystr) : world :=
  unlink k (del_paste k w).

(** [load_index()], with [now] the value of [datetime.utcnow()]. *)
Definition load_index (now : datetime) (w : world) : world :=
  match index_file w with
  | Some snapshot =>
      let w1 := emit EvReadIndex (set_pastes (json_loads snapshot) w) in
      let expired := expired_keys now (pastes w1) in
      let w2 := fold_left purge expired w1 in
      match expired with
      | [] => w2
      | _ :: _ => save_index w2
      end
  | None => w
  end.

(** [startup()]: the index is the empty module-level dict until
    [load_index] fills it. *)
Definition boot (w : world) : world := set_pastes [] w.

Definition startup (now : datetime) (w : world) : world :=
  load_index now (boot w).

(** [string.ascii_lowercase + string.digits] *)
Definition alphabet : pystr := lit "abcdefghijklmnopqrstuvwxyz0123456789".

(** [secrets.choice(alphabet)], where [r] is what the system's random
    source yields for this call. *)
Definition secrets_choice (r : nat) : codepoint :=
  nth (r mod length alphabet) alphabet 0%N.

(** [''.join(secrets.choice(alphabet) for _ in range(length))], drawing
    from the stream [rng] of future random values. *)
Definition draw (id_length : nat) (rng : nat -> nat) : pystr :=
  map (fun j => secrets_choice (rng j)) (seq 0 id_length).

(** The rest of the stream once [n] values are used. *)
Definition advance (n : nat) (rng : nat -> nat) : nat -> nat :=
  fun j => rng (n + j)%nat.

(** [generate_id(length)]: the [while True] loop, cut after [fuel]
    rounds ([None]: still looping). *)
Fixpoint generate_id (fuel : nat) (id_length : nat) (rng : nat -> nat)
    (d : dict meta) : option pystr :=
  match fuel with
  | O => None
  | S fuel' =>
      let paste_id := draw id_length rng in
      if negb (dict_contains paste_id d) then Some paste_id
      else generate_id fuel' id_length (advance id_length rng) d
  end.

(** The file [DATA_DIR/pastes/paste_id] opened for writing and left
    holding [text]. *)
Definition write_file (paste_id text : pystr) (w : world) : world :=
  emit (EvWriteContent paste_id)
       (set_paste_files (<[paste_id := text]> (paste_files w)) w).

(** [save_content(paste_id, content)]: [write_text] opens the file, which
    creates or empties it, and then encodes and writes the text; when the
    text cannot be encoded it raises and the file stays empty. *)
Definition save_content (paste_id content : pystr) (w : world) : outcome unit :=
  if encodable content
  then Return tt (write_file paste_id content w)
  else Raise UnicodeEncodeError (write_file paste_id [] w).

(** [load_content(paste_id)] *)
Definition load_content (paste_id : pystr) (w : world) : option pystr * world :=
  match paste_files w !! paste_id with
  | Some stored => (Some (universal_newlines stored), emit (EvReadContent paste_id) w)
  | None => (None, w)
  end.

(** [highlight_code(content, language)] *)
Definition highlight_code (cfg : config) (content : pystr)
    (lang : option pystr) : pystr :=
  match pygments cfg with
  | None => lit "<pre><code>" ++ content ++ lit "</code></pre>"
  | Some hl => hl content lang
  end.

(* ===================================================================== *)
(** ** Request and response models *)
(* ===================================================================== *)

Module PasteCreate.
(** The validated request body. *)
Record t := {
  content : pystr;
  language : option pystr;
  title : option pystr;
  expires_in_hours : option Z;
  burn_after_read : bool
  }.

(** The JSON body as sent: an optional member is [None] when it is left
    out; [expires_in_hours] may also be sent as [null] ([Some None]). *)
Record body := {
  body_content : pystr;
  body_language : option pystr;
  body_title : option pystr;
  body_expires_in_hours : option (option Z);
  body_burn_after_read : option bool
  }.

(** Field defaults of the model class. *)
Definition validate (b : body) : t :=
  {| content := body_content b;
     language := body_language b;
     title := body_title b;
     expires_in_hours :=
       match body_expires_in_hours b with
       | Some given => given
       | None => Some DEFAULT_EXPIRY_HOURS
       end;
     burn_after_read :=
       match body_burn_after_read b with
       | Some given => given
       | None => false
       end |}.
End PasteCreate.

Module PasteResponse.
Record t := {
  id : pystr;
  url : pystr;
  raw_url : pystr;
  created_at : datetime;
  expires_at : option datetime;
  language : option pystr
  }.
End PasteResponse.

Module Summary.
(** One entry of the listing. *)
Record t := {
  id : pystr;
  url : pystr;
  title : option pystr;
  language : option pystr;
  size : Z;
  created_at : datetime;
  expires_at : option datetime
  }.
End Summary.

Module Listing.
Record t := {
  pastes : list Summary.t;
  total : Z
  }.
End Listing.

Module Page.
(** The values interpolated into the HTML page. *)
Record t := {
  title : pystr;
  language : pystr;
  created : datetime;
  raw_link : pystr;
  highlighted : pystr
  }.
End Page.

(* ===================================================================== *)
(** ** Handlers *)
(* ===================================================================== *)

Section Handlers.
Variable cfg : config.

(** Lines 159-161: [Some None] no expiry, [Some (Some e)] expiry at [e],
    [None] when the datetime arithmetic overflows. *)
Definition compute_expires_at (now : datetime) (hours : option Z)
    : option (option datetime) :=
  match hours with
  | Some h =>
      if negb (h =? 0) && (0 <? h) then
        match timedelta_hours h with
        | Some td =>
            match datetime_add now td with
            | Some e => Some (Some e)
            | None => None
            end
        | None => None
        end
      else Some None
  | None => Some None
  end.

(** Lines 163-173, one statement after the other. *)
Definition insert_record (paste_id : pystr) (m : meta) (w : world) : world :=
  set_pastes (dict_set paste_id m (pastes w)) w.

(** The world once all three statements have run. *)
Definition store_paste (paste_id : pystr) (m : meta) (content : pystr)
    (w : world) : world :=
  save_index (write_file paste_id content (insert_record paste_id m w)).

(** The worlds the three statements go through, first to last; a write
    that raises ends the run. *)
Definition store_paste_trace (paste_id : pystr) (m : meta) (content : pystr)
    (w : world) : list world :=
  let w1 := insert_record paste_id m w in
  match save_content paste_id content w1 with
  | Return _ w2 => [w; w1; w2; save_index w2]
  | Raise _ w2 => [w; w1; w2]
  | Diverge => [w; w1]
  end.

Definition new_meta (now : datetime) (expires : option datetime)
    (data : PasteCreate.t) : meta :=
  {| title := PasteCreate.title data;
     language := PasteCreate.language data;
     created_at := now;
     expires_at := expires;
     burn_after_read := PasteCreate.burn_after_read data;
     size := len (PasteCreate.content data) |}.

(** [POST /api/paste] *)
Definition create_paste (rng : nat -> nat) (fuel : nat) (now : datetime)
    (data : PasteCreate.t) (w : world) : outcome PasteResponse.t :=
  if MAX_SIZE cfg <? len (PasteCreate.content data) then
    Raise ContentTooLarge w
  else if negb (truthy (strip (PasteCreate.content data))) then
    Raise EmptyContent w
  else
    match generate_id fuel 8 rng (pastes w) with
    | None => Diverge
    | Some paste_id =>
        match compute_expires_at now (PasteCreate.expires_in_hours data) with
        | None => Raise OverflowError w
        | Some expires =>
            let m := new_meta now expires data in
            let w1 := insert_record paste_id m w in
            match save_content paste_id (PasteCreate.content data) w1 with
            | Return _ w2 =>
                Return
                  {| PasteResponse.id := paste_id;
                     PasteResponse.url := BASE_URL cfg ++ lit "/" ++ paste_id;
                     PasteResponse.raw_url :=
                       BASE_URL cfg ++ lit "/" ++ paste_id ++ lit "/raw";
                     PasteResponse.created_at := now;
                     PasteResponse.expires_at := expires;
                     PasteResponse.language := PasteCreate.language data |}
                  (save_index w2)
            | Raise e w2 => Raise e w2
            | Diverge => Diverge
            end
        end
    end.

Definition summary (kv : pystr * meta) : Summary.t :=
  let (paste_id, m) := kv in
  {| Summary.id := paste_id;
     Summary.url := BASE_URL cfg ++ lit "/" ++ paste_id;
     Summary.title := title m;
     Summary.language := language m;
     Summary.size := size m;
     Summary.created_at := created_at m;
     Summary.expires_at := expires_at m |}.

(** [GET /api/pastes?limit=N] *)
Definition list_pastes (limit : Z) (w : world) : outcome Listing.t :=
  Return
    {| Listing.pastes := map summary (slice_to limit (dict_items (pastes w)));
       Listing.total := Z.of_nat (length (pastes w)) |}
    w.

(** The burn step shared by both readers. *)
Definition burn (paste_id : pystr) (w : world) : world :=
  save_index (unlink paste_id (del_paste paste_id w)).

(** [GET /{paste_id}/raw] *)
Definition get_paste_raw (paste_id : pystr) (w : world) : outcome pystr :=
  if negb (dict_contains paste_id (pastes w)) then Raise NotFound w
  else
    match load_content paste_id w with
    | (None, w1) => Raise NotFound w1
    | (Some content, w1) =>
        match dict_get paste_id (pastes w1) with
        | None => Raise KeyError w1
        | Some m =>
            if burn_after_read m
            then Return content (burn paste_id w1)
            else Return content w1
        end
    end.

(** [GET /{paste_id}] *)
Definition get_paste_html (paste_id : pystr) (w : world) : outcome Page.t :=
  if negb (dict_contains paste_id (pastes w)) then Raise NotFound w
  else
    match load_content paste_id w with
    | (None, w1) => Raise NotFound w1
    | (Some content, w1) =>
        match dict_get paste_id (pastes w1) with
        | None => Raise KeyError w1
        | Some m =>
            let page :=
              {| Page.title :=
                   match title m with
                   | Some t => if truthy t then t else paste_id
                   | None => paste_id
                   end;
                 Page.language :=
                   match language m with
                   | Some l => if truthy l then l else lit "auto"
                   | None => lit "auto"
                   end;
                 Page.created := created_at m / 1000000 * 1000000;
                 Page.raw_link := lit "/" ++ paste_id ++ lit "/raw";
                 Page.highlighted := highlight_code cfg content (language m) |} in
            if burn_after_read m
            then Return page (burn paste_id w1)
            else Return page w1
        end
    end.

(** [DELETE /api/paste/{paste_id}] *)
Definition delete_paste (paste_id : pystr) (w : world) : outcome pystr :=
  if negb (dict_contains paste_id (pastes w)) then Raise NotFound w
  else Return paste_id (save_index (unlink paste_id (del_paste paste_id w))).
End Handlers.

(* ===================================================================== *)
(** ** The server: requests, and the worlds it can be in *)
(* ===================================================================== *)

Inductive request :=
| Create (rng : nat -> nat) (fuel : nat) (now : datetime) (data : PasteCreate.t)
| ListPastes (limit : Z)
| ReadRaw (paste_id : pystr)
| ReadHtml (paste_id : pystr)
| Delete (paste_id : pystr)
| Restart (now : datetime).

(** The world after a request has been served to completion. *)
Definition handle (cfg : config) (r : request) (w : world) : option world :=
  match r with
  | Create rng fuel now data => world_of (create_paste cfg rng fuel now data w)
  | ListPastes limit => world_of (list_pastes cfg limit w)
  | ReadRaw paste_id => world_of (get_paste_raw paste_id w)
  | ReadHtml paste_id => world_of (get_paste_html cfg paste_id w)
  | Delete paste_id => world_of (delete_paste paste_id w)
  | Restart now => Some (startup now w)
  end.

(** A fresh data directory and a process that has not served anything. *)
Definition initial_world : world :=
  {| pastes := []; paste_files := ∅; index_file := None; log := [] |}.

Inductive reachable (cfg : config) : world -> Prop :=
| reachable_initial : reachable cfg initial_world
| reachable_step r w w' :
    reachable cfg w -> handle cfg r w = Some w' -> reachable cfg w'.

(** Serving a list of requests in order. *)
Fixpoint serve (cfg : config) (rs : list request) (w : world) : option world :=
  match rs with
  | [] => Some w
  | r :: rs' =>
      match handle cfg r w with
      | Some w' => serve cfg rs' w'
      | None => None
      end
  end.

(* ===================================================================== *)
(** ** Ids and random sources *)
(* ===================================================================== *)

(** A string of the given length over the alphabet. *)
Definition is_valid_id (id_length : nat) (s : pystr) : bool :=
  (length s =? id_length)%nat &&
  forallb (fun c => existsb (N.eqb c) alphabet) s.

(** The candidate drawn in round [n] of the loop (rounds count from 0). *)
Definition candidate (id_length : nat) (rng : nat -> nat) (n : nat) : pystr :=
  draw id_length (advance (n * id_length) rng).

(** A random source is fair for the loop when every id over the alphabet
    comes up in some round.  A uniform source is fair with probability 1. *)
Definition fair (id_length : nat) (rng : nat -> nat) : Prop :=
  forall s, is_valid_id id_length s = true ->
    exists n, candidate id_length rng n = s.

(** The index holds every id of the given length. *)
Definition saturated (id_length : nat) (d : dict meta) : Prop :=
  forall s, is_valid_id id_length s = true -> dict_contains s d = true.

(** A concrete fair source: round [n] spells [n] in base 36, lowest digit
    first. *)
Fixpoint digits (n : nat) (id_length : nat) : list nat :=
  match id_length with
  | O => []
  | S l => (n mod 36)%nat :: digits (n / 36) l
  end.

Definition counting_rng (id_length : nat) : nat -> nat :=
  fun j => nth (j mod id_length) (digits (j / id_length) id_length) O.

Fixpoint undigits (ds : list nat) : nat :=
  match ds with
  | [] => O
  | d :: ds' => (d + 36 * undigits ds')%nat
  end.

(* ===================================================================== *)
(** ** Predicates on worlds and request sequences *)
(* ===================================================================== *)

(** The id is neither in the in-memory index nor in the snapshot. *)
Definition forgotten (paste_id : pystr) (w : world) : Prop :=
  dict_contains paste_id (pastes w) = false /\
  forall snapshot, index_file w = Some snapshot ->
    dict_contains paste_id (json_loads snapshot) = false.

(** The request is a create that hands out [paste_id]: it puts the id,
    free until then, into the index (also a create whose content write
    raises has done so). *)
Definition issues (cfg : config) (paste_id : pystr) (r : request) (w : world)
    : bool :=
  match r with
  | Create rng fuel now data =>
      match world_of (create_paste cfg rng fuel now data w) with
      | Some w' =>
          negb (dict_contains paste_id (pastes w)) &&
          dict_contains paste_id (pastes w')
      | None => false
      end
  | _ => false
  end.

(** Serving requests none of which hands out [paste_id]. *)
Inductive serves_without (cfg : config) (paste_id : pystr)
    : world -> list request -> world -> Prop :=
| serves_without_nil w : serves_without cfg paste_id w [] w
| serves_without_cons r rs w w1 w2 :
    issues cfg paste_id r w = false ->
    handle cfg r w = Some w1 ->
    serves_without cfg paste_id w1 rs w2 ->
    serves_without cfg paste_id w (r :: rs) w2.


(** The snapshot on disk is the index; no snapshot yet means an empty
    index. *)
Definition snapshot_current (w : world) : Prop :=
  match index_file w with
  | Some snapshot => snapshot = json_dumps (pastes w)
  | None => pastes w = []
  end.


(* ===================================================================== *)
(** ** Sample configurations and requests *)
(* ===================================================================== *)

(** [PASTE_MAX_SIZE=4] in the environment. *)
Definition small_config : config :=
  {| BASE_URL := lit "http://localhost:8084";
     MAX_SIZE := 4;
     pygments := None |}.

(** A body with only [content] (and possibly [burn_after_read]) given. *)
Definition plain_body (content : pystr) : PasteCreate.body :=
  {| PasteCreate.body_content := content;
     PasteCreate.body_language := None;
     PasteCreate.body_title := None;
     PasteCreate.body_expires_in_hours := None;
     PasteCreate.body_burn_after_read := None |}.

Definition burn_body (content : pystr) : PasteCreate.body :=
  {| PasteCreate.body_content := content;
     PasteCreate.body_language := None;
     PasteCreate.body_title := None;
     PasteCreate.body_expires_in_hours := None;
     PasteCreate.body_burn_after_read := Some true |}.

Definition hours_body (content : pystr) (hours : option Z) : PasteCreate.body :=
  {| PasteCreate.body_content := content;
     PasteCreate.body_language := None;
     PasteCreate.body_title := None;
     PasteCreate.body_expires_in_hours := Some hours;
     PasteCreate.body_burn_after_read := None |}.

(** A random source whose every draw is 0: every candidate id is
    ["aaaaaaaa"]. *)
Definition zeros : nat -> nat := fun _ => O.

(** 2026-11-04T00:00:00 *)
Definition sample_now : datetime := 63929347200000000.

(** A random source whose every draw is 1: every candidate id is
    ["bbbbbbbb"]. *)
Definition ones : nat -> nat := fun _ => 1%nat.

(** The server after two pastes, ["one"] then ["two"]. *)
Definition two_pastes_world : world :=
  default initial_world
    (serve default_config
       [Create zeros 1 sample_now (PasteCreate.validate (plain_body (lit "one")));
        Create ones 1 sample_now (PasteCreate.validate (plain_body (lit "two")))]
       initial_world).

(** The server after one paste ["secret"] created with
    [burn_after_read]. *)
Definition burn_world : world :=
  default initial_world
    (serve default_config
       [Create zeros 1 sample_now (PasteCreate.validate (burn_body (lit "secret")))]
       initial_world).

(** The server after a paste ["old"] that expires in one hour and a paste
    ["new"] with the default expiry. *)
Definition stale_world : world :=
  default initial_world
    (serve default_config
       [Create zeros 1 sample_now
          (PasteCreate.validate (hours_body (lit "old") (Some 1)));
        Create ones 1 sample_now (PasteCreate.validate (plain_body (lit "new")))]
       initial_world).

(** The text ["a\r\nb"]. *)
Definition crlf_text : pystr := lit "a" ++ [CR; LF] ++ lit "b".

(* ===================================================================== *)
(** ** Information endpoints *)
(* ===================================================================== *)

Module RootInfo.
Record t := {
  name : pystr;
  total_pastes : Z;
  max_size_bytes : Z;
  api : list (pystr * pystr)
}.
End RootInfo.

(** [GET /] *)
Definition root (cfg : config) (w : world) : outcome RootInfo.t :=
  Return
    {| RootInfo.name := lit "Quick Paste";
       RootInfo.total_pastes := Z.of_nat (length (pastes w));
       RootInfo.max_size_bytes := MAX_SIZE cfg;
       RootInfo.api :=
         [(lit "create", lit "POST /api/paste");
          (lit "view", lit "GET /{id}");
          (lit "raw", lit "GET /{id}/raw");
          (lit "delete", lit "DELETE /api/paste/{id}")] |}
    w.

(** The number of files under [DATA_DIR/pastes]. *)
Definition file_count (w : world) : Z :=
  Z.of_nat (length (map_to_list (paste_files w))).

(** Two pastes in the index whose content files were removed behind the
    server's back. *)
Definition dangling_world : world := set_paste_files ∅ two_pastes_world.

(** No carriage return in the text. *)
Definition no_CR (s : pystr) : bool := forallb (fun c => negb (c =? CR)%N) s.

(* ===================================================================== *)
(** ** Failed content writes *)
(* ===================================================================== *)

(** The world a create leaves when [save_content] raises: the record is in
    the index, the content file is there and empty, the snapshot has not
    been rewritten. *)
Definition failed_store (paste_id : pystr) (m : meta) (w : world) : world :=
  write_file paste_id [] (insert_record paste_id m w).

(** The members of the snapshot file; none when there is no file. *)
Definition snapshot_members (w : world) : list (pystr * meta) :=
  default [] (index_file w).

(** What holds of every world the server can be in: index keys are unique,
    every id of the index has a content file, a content file whose id is not
    in the index is empty, and the index is the snapshot followed by the
    records of creates whose content write failed since the snapshot was
    written, each of those with an empty file. *)
Definition sound (w : world) : Prop :=
  dict_wf (pastes w) /\
  (forall k, dict_contains k (pastes w) = true -> is_Some (paste_files w !! k)) /\
  (forall k stored, paste_files w !! k = Some stored ->
     dict_contains k (pastes w) = true \/ stored = []) /\
  exists rest,
    pastes w = snapshot_members w ++ rest /\
    forall k m, (k, m) ∈ rest -> paste_files w !! k = Some [].


(** A text that is one lone surrogate, as JSON ["\ud800"] decodes to. *)
Definition surrogate_text : pystr := [0xD800%N].


(* ===================================================================== *)
(** * Properties *)
(* ===================================================================== *)

(** ** Strings *)

Lemma str_eqb_eq (a b : pystr) : str_eqb a b = true <-> a = b.
Proof. unfold str_eqb. apply bool_decide_eq_true. Qed.

Lemma str_eqb_refl (a : pystr) : str_eqb a a = true.
Proof. by apply str_eqb_eq. Qed.

Lemma str_eqb_neq (a b : pystr) : str_eqb a b = false <-> a <> b.
Proof. unfold str_eqb. apply bool_decide_eq_false. Qed.

Lemma str_eqb_sym (a b : pystr) : str_eqb a b = str_eqb b a.
Proof.
  destruct (str_eqb b a) eqn:E.
  - apply str_eqb_eq in E. subst. apply str_eqb_refl.
  - apply str_eqb_neq in E. apply str_eqb_neq. congruence.
Qed.

Lemma lstrip_nil_iff (s : pystr) : lstrip s = [] <-> forallb isspace s = true.
Proof.
  induction s as [|c t IH]; simpl; [tauto|].
  destruct (isspace c); simpl; [exact IH|]. split; discriminate.
Qed.

Lemma lstrip_head (s : pystr) c t : lstrip s = c :: t -> isspace c = false.
Proof.
  induction s as [|a s IH]; simpl; [discriminate|].
  destruct (isspace a) eqn:E; [exact IH|]. intros [= -> _]. exact E.
Qed.

Lemma forallb_rev {A} (p : A -> bool) (l : list A) :
  forallb p (rev l) = forallb p l.
Proof.
  induction l as [|a l IH]; simpl; [reflexivity|].
  rewrite forallb_app, IH. simpl. rewrite andb_true_r. apply andb_comm.
Qed.

Lemma rstrip_nil_iff (s : pystr) : rstrip s = [] <-> forallb isspace s = true.
Proof.
  unfold rstrip. rewrite <- (forallb_rev isspace s), <- lstrip_nil_iff.
  split; intros H.
  - apply (f_equal (@rev codepoint)) in H. by rewrite rev_involutive in H.
  - by rewrite H.
Qed.

(** [not content.strip()] holds exactly for empty or all-whitespace text. *)
Lemma strip_nil_iff (s : pystr) : strip s = [] <-> forallb isspace s = true.
Proof.
  unfold strip. rewrite rstrip_nil_iff. split; intros H.
  - destruct (lstrip s) as [|c t] eqn:E; [by apply lstrip_nil_iff|].
    apply lstrip_head in E. simpl in H. rewrite E in H. discriminate.
  - apply lstrip_nil_iff in H. by rewrite H.
Qed.

Lemma truthy_strip (s : pystr) :
  truthy (strip s) = negb (forallb isspace s).
Proof.
  destruct (forallb isspace s) eqn:E.
  - apply strip_nil_iff in E. by rewrite E.
  - destruct (strip s) eqn:S; [|reflexivity].
    apply strip_nil_iff in S. congruence.
Qed.

Lemma utf8_len_ascii (s : pystr) : is_ascii s = true -> utf8_len s = len s.
Proof.
  unfold len, utf8_len. induction s as [|c t IH]; [reflexivity|].
  cbn [is_ascii forallb length fold_right].
  intros [Hc Ht]%andb_true_iff. rewrite (IH Ht), Nat2Z.inj_succ.
  replace (utf8_width c) with 1; [lia|]. unfold utf8_width. by rewrite Hc.
Qed.

Lemma len_le_utf8_len (s : pystr) : len s <= utf8_len s.
Proof.
  unfold len, utf8_len. induction s as [|c t IH]; [simpl; lia|].
  cbn [length fold_right]. rewrite Nat2Z.inj_succ.
  assert (1 <= utf8_width c); [|lia]. unfold utf8_width.
  destruct (c <? 0x80)%N, (c <? 0x800)%N, (c <? 0x10000)%N; lia.
Qed.


(** ** Dict *)

Section DictFacts.
Context {V : Type}.
Implicit Types (d : dict V) (k : pystr) (v : V).

Lemma dict_contains_In k d : dict_contains k d = true <-> k ∈ dict_keys d.
Proof.
  unfold dict_contains, dict_keys. rewrite existsb_exists, list_elem_of_fmap.
  split.
  - intros ([k' v] & Hin & ->%str_eqb_eq). exists (k', v).
    split; [reflexivity|]. by apply list_elem_of_In.
  - intros ([k' v] & -> & Hin). exists (k', v).
    split; [by apply list_elem_of_In|]. apply str_eqb_refl.
Qed.

Lemma dict_contains_false k d : dict_contains k d = false <-> k ∉ dict_keys d.
Proof.
  rewrite <- dict_contains_In. destruct (dict_contains k d); split; congruence.
Qed.

Lemma dict_contains_get k d :
  dict_contains k d = true <-> is_Some (dict_get k d).
Proof.
  induction d as [|[k' v'] t IH]; simpl.
  - split; [discriminate|]. by intros [? ?].
  - destruct (str_eqb k k'); simpl; [|exact IH].
    split; [by eexists|reflexivity].
Qed.

Lemma dict_get_None k d : dict_contains k d = false <-> dict_get k d = None.
Proof.
  pose proof (dict_contains_get k d) as H.
  destruct (dict_contains k d), (dict_get k d) as [v|] eqn:E.
  - split; discriminate.
  - destruct H as [H _]. destruct (H eq_refl); discriminate.
  - destruct H as [_ H]. by specialize (H (ex_intro _ v eq_refl)).
  - tauto.
Qed.

Lemma dict_get_In k v d : dict_get k d = Some v -> (k, v) ∈ d.
Proof.
  induction d as [|[k' v'] t IH]; simpl; [discriminate|].
  destruct (str_eqb k k') eqn:E.
  - apply str_eqb_eq in E. intros [= ->]. subst. left.
  - intros H. right. by apply IH.
Qed.

Lemma dict_In_get k v d : dict_wf d -> (k, v) ∈ d -> dict_get k d = Some v.
Proof.
  unfold dict_wf, dict_keys.
  induction d as [|[k' v'] t IH]; simpl; intros Hwf Hin.
  - by apply elem_of_nil in Hin.
  - apply NoDup_cons in Hwf as [Hk Hwf]. apply elem_of_cons in Hin as [E|Hin].
    + injection E as -> ->. by rewrite str_eqb_refl.
    + destruct (str_eqb k k') eqn:E; [|by apply IH].
      apply str_eqb_eq in E. subst. exfalso. apply Hk.
      apply list_elem_of_fmap. by exists (k', v).
Qed.

Lemma dict_set_fresh k v d :
  dict_contains k d = false -> dict_set k v d = d ++ [(k, v)].
Proof.
  induction d as [|[k' v'] t IH]; simpl; [reflexivity|].
  destruct (str_eqb k k'); simpl; [discriminate|].
  intros H. by rewrite IH.
Qed.

Lemma dict_keys_set k v d :
  dict_keys (dict_set k v d) =
  if dict_contains k d then dict_keys d else dict_keys d ++ [k].
Proof.
  induction d as [|[k' v'] t IH]; simpl; [reflexivity|].
  destruct (str_eqb k k') eqn:E; simpl; [reflexivity|].
  rewrite IH. by destruct (dict_contains k t).
Qed.

Lemma dict_contains_set k k' v d :
  dict_contains k (dict_set k' v d) = str_eqb k k' || dict_contains k d.
Proof.
  induction d as [|[k2 v2] t IH]; simpl; [by rewrite orb_false_r|].
  destruct (str_eqb k' k2) eqn:E; simpl.
  - apply str_eqb_eq in E. subst.
    destruct (str_eqb k k2); reflexivity.
  - rewrite IH. destruct (str_eqb k k2), (str_eqb k k'); reflexivity.
Qed.

Lemma dict_get_set_eq k v d : dict_get k (dict_set k v d) = Some v.
Proof.
  induction d as [|[k' v'] t IH]; simpl.
  - by rewrite str_eqb_refl.
  - destruct (str_eqb k k') eqn:E; simpl; rewrite E; [reflexivity|exact IH].
Qed.

Lemma dict_get_set_ne k k' v d :
  k <> k' -> dict_get k (dict_set k' v d) = dict_get k d.
Proof.
  intros Hne. apply str_eqb_neq in Hne.
  induction d as [|[k2 v2] t IH]; simpl.
  - by rewrite Hne.
  - destruct (str_eqb k' k2) eqn:E; simpl.
    + apply str_eqb_eq in E. subst. by rewrite Hne.
    + by rewrite IH.
Qed.

Lemma dict_wf_set k v d : dict_wf d -> dict_wf (dict_set k v d).
Proof.
  unfold dict_wf. rewrite dict_keys_set.
  destruct (dict_contains k d) eqn:E; [done|].
  intros Hwf. apply NoDup_app. split; [done|]. split.
  - intros x Hx ->%list_elem_of_singleton.
    apply dict_contains_false in E. by apply E.
  - apply NoDup_singleton.
Qed.

Lemma dict_contains_del k k' d :
  dict_contains k (dict_del k' d) = negb (str_eqb k' k) && dict_contains k d.
Proof.
  unfold dict_del.
  induction d as [|[k2 v2] t IH]; simpl; [by rewrite andb_false_r|].
  destruct (str_eqb k' k2) eqn:E; simpl.
  - rewrite IH. apply str_eqb_eq in E. subst.
    rewrite (str_eqb_sym k k2). by destruct (str_eqb k2 k).
  - rewrite IH. destruct (str_eqb k k2) eqn:E2; simpl; [|reflexivity].
    apply str_eqb_eq in E2. subst. by rewrite E.
Qed.

Lemma dict_contains_del_eq k d : dict_contains k (dict_del k d) = false.
Proof. by rewrite dict_contains_del, str_eqb_refl. Qed.

Lemma dict_get_del_ne k k' d :
  k <> k' -> dict_get k (dict_del k' d) = dict_get k d.
Proof.
  intros Hne. unfold dict_del.
  induction d as [|[k2 v2] t IH]; simpl; [reflexivity|].
  destruct (str_eqb k' k2) eqn:E; simpl.
  - apply str_eqb_eq in E. subst.
    apply str_eqb_neq in Hne. by rewrite Hne.
  - by rewrite IH.
Qed.

Lemma dict_keys_del k d :
  dict_keys (dict_del k d) =
  List.filter (fun k' => negb (str_eqb k k')) (dict_keys d).
Proof.
  unfold dict_del, dict_keys.
  induction d as [|[k2 v2] t IH]; simpl; [reflexivity|].
  destruct (str_eqb k k2) eqn:E; simpl; [exact IH|]. by rewrite IH.
Qed.

Lemma dict_wf_del k d : dict_wf d -> dict_wf (dict_del k d).
Proof.
  unfold dict_wf. rewrite dict_keys_del.
  induction (dict_keys d) as [|k' ks IH]; simpl; [done|].
  intros [Hk Hks]%NoDup_cons.
  destruct (str_eqb k k'); simpl; [by apply IH|].
  apply NoDup_cons. split; [|by apply IH].
  intros Hin%list_elem_of_In%filter_In. apply Hk, list_elem_of_In, Hin.
Qed.

Lemma dict_del_absent k d : dict_contains k d = false -> dict_del k d = d.
Proof.
  unfold dict_del.
  induction d as [|[k2 v2] t IH]; simpl; [reflexivity|].
  destruct (str_eqb k k2); simpl; [discriminate|]. intros H. by rewrite IH.
Qed.

(** Rebuilding a dict from its own items gives it back. *)
Lemma dict_of_items_app (acc l : list (pystr * V)) :
  dict_wf (acc ++ l) ->
  fold_left (fun d kv => dict_set (fst kv) (snd kv) d) l acc = acc ++ l.
Proof.
  revert acc. induction l as [|[k v] l IH]; intros acc Hwf; simpl.
  - by rewrite app_nil_r.
  - assert (dict_contains k acc = false) as Hk.
    { apply dict_contains_false. unfold dict_wf, dict_keys in *.
      rewrite fmap_app in Hwf. apply NoDup_app in Hwf as (_ & Hd & _).
      intros Hin. apply (Hd k Hin). simpl. left. }
    rewrite (dict_set_fresh _ _ _ Hk).
    replace (acc ++ (k, v) :: l) with ((acc ++ [(k, v)]) ++ l) in *
      by (by rewrite <- app_assoc).
    by apply IH.
Qed.

Lemma dict_of_items_wf_id d : dict_wf d -> dict_of_items d = d.
Proof. intros H. unfold dict_of_items. by rewrite dict_of_items_app. Qed.

Lemma dict_of_items_wf (l : list (pystr * V)) : dict_wf (dict_of_items l).
Proof.
  unfold dict_of_items.
  assert (forall acc, dict_wf acc ->
    dict_wf (fold_left (fun d kv => dict_set (fst kv) (snd kv) d) l acc)) as H.
  { induction l as [|[k v] l IH]; intros acc Hacc; simpl; [done|].
    apply IH. by apply dict_wf_set. }
  apply H. apply NoDup_nil_2.
Qed.
End DictFacts.

(** ** Create: validation *)

Section CreateFacts.
Variable cfg : config.
Implicit Types (data : PasteCreate.t) (w : world) (rng : nat -> nat).

Lemma create_paste_too_large rng fuel now data w :
  MAX_SIZE cfg < len (PasteCreate.content data) ->
  create_paste cfg rng fuel now data w = Raise ContentTooLarge w.
Proof.
  intros H. unfold create_paste.
  apply Z.ltb_lt in H. by rewrite H.
Qed.

Lemma create_paste_empty rng fuel now data w :
  len (PasteCreate.content data) <= MAX_SIZE cfg ->
  forallb isspace (PasteCreate.content data) = true ->
  create_paste cfg rng fuel now data w = Raise EmptyContent w.
Proof.
  intros H Hs. unfold create_paste.
  apply Z.ltb_ge in H. by rewrite H, truthy_strip, Hs.
Qed.

(** Past the two checks, the handler is the id loop, the expiry
    computation and the three stores. *)
Lemma create_paste_valid rng fuel now data w :
  len (PasteCreate.content data) <= MAX_SIZE cfg ->
  forallb isspace (PasteCreate.content data) = false ->
  create_paste cfg rng fuel now data w =
  match generate_id fuel 8 rng (pastes w) with
  | None => Diverge
  | Some paste_id =>
      match compute_expires_at now (PasteCreate.expires_in_hours data) with
      | None => Raise OverflowError w
      | Some expires =>
          if encodable (PasteCreate.content data) then
            Return
              {| PasteResponse.id := paste_id;
                 PasteResponse.url := BASE_URL cfg ++ lit "/" ++ paste_id;
                 PasteResponse.raw_url :=
                   BASE_URL cfg ++ lit "/" ++ paste_id ++ lit "/raw";
                 PasteResponse.created_at := now;
                 PasteResponse.expires_at := expires;
                 PasteResponse.language := PasteCreate.language data |}
              (store_paste paste_id (new_meta now expires data)
                 (PasteCreate.content data) w)
          else
            Raise UnicodeEncodeError
              (failed_store paste_id (new_meta now expires data) w)
      end
  end.
Proof.
  intros H Hs. unfold create_paste.
  apply Z.ltb_ge in H. rewrite H, truthy_strip, Hs. simpl.
  destruct (generate_id fuel 8 rng (pastes w)) as [paste_id|]; [|reflexivity].
  destruct (compute_expires_at now _) as [expires|]; [|reflexivity].
  unfold save_content.
  by destruct (encodable (PasteCreate.content data)).
Qed.

(** What a successful create did. *)
Lemma create_paste_Return rng fuel now data w resp w' :
  create_paste cfg rng fuel now data w = Return resp w' ->
  len (PasteCreate.content data) <= MAX_SIZE cfg /\
  forallb isspace (PasteCreate.content data) = false /\
  generate_id fuel 8 rng (pastes w) = Some (PasteResponse.id resp) /\
  compute_expires_at now (PasteCreate.expires_in_hours data)
    = Some (PasteResponse.expires_at resp) /\
  PasteResponse.created_at resp = now /\
  w' = store_paste (PasteResponse.id resp)
         (new_meta now (PasteResponse.expires_at resp) data)
         (PasteCreate.content data) w.
Proof.
  destruct (Z.ltb_spec (MAX_SIZE cfg) (len (PasteCreate.content data))) as [H|H].
  { rewrite create_paste_too_large by done. discriminate. }
  destruct (forallb isspace (PasteCreate.content data)) eqn:Hs.
  { rewrite create_paste_empty by done. discriminate. }
  rewrite create_paste_valid by done.
  destruct (generate_id fuel 8 rng (pastes w)) as [paste_id|]; [|discriminate].
  destruct (compute_expires_at now _) as [expires|]; [|discriminate].
  destruct (encodable (PasteCreate.content data)); [|discriminate].
  intros [= <- <-]. simpl. repeat split; done.
Qed.

(** A create returns only for content that can be encoded. *)
Lemma create_paste_Return_encodable rng fuel now data w resp w' :
  create_paste cfg rng fuel now data w = Return resp w' ->
  encodable (PasteCreate.content data) = true.
Proof.
  destruct (Z.ltb_spec (MAX_SIZE cfg) (len (PasteCreate.content data))) as [H|H].
  { rewrite create_paste_too_large by done. discriminate. }
  destruct (forallb isspace (PasteCreate.content data)) eqn:Hs.
  { rewrite create_paste_empty by done. discriminate. }
  rewrite create_paste_valid by done.
  destruct (generate_id fuel 8 rng (pastes w)) as [paste_id|]; [|discriminate].
  destruct (compute_expires_at now _) as [expires|]; [|discriminate].
  by destruct (encodable (PasteCreate.content data)).
Qed.

(** A create that raises either has left the world as it was, or its
    content write failed after the record went into the index. *)
Lemma create_paste_Raise rng fuel now data w e w' :
  create_paste cfg rng fuel now data w = Raise e w' ->
  (w' = w /\ (e = ContentTooLarge \/ e = EmptyContent \/ e = OverflowError)) \/
  (e = UnicodeEncodeError /\
   len (PasteCreate.content data) <= MAX_SIZE cfg /\
   forallb isspace (PasteCreate.content data) = false /\
   encodable (PasteCreate.content data) = false /\
   exists paste_id expires,
     generate_id fuel 8 rng (pastes w) = Some paste_id /\
     compute_expires_at now (PasteCreate.expires_in_hours data) = Some expires /\
     w' = failed_store paste_id (new_meta now expires data) w).
Proof.
  destruct (Z.ltb_spec (MAX_SIZE cfg) (len (PasteCreate.content data))) as [H|H].
  { rewrite create_paste_too_large by done. intros [= <- <-]. left. auto. }
  destruct (forallb isspace (PasteCreate.content data)) eqn:Hs.
  { rewrite create_paste_empty by done. intros [= <- <-]. left. auto. }
  rewrite create_paste_valid by done.
  destruct (generate_id fuel 8 rng (pastes w)) as [paste_id|]; [|discriminate].
  destruct (compute_expires_at now _) as [expires|];
    [|intros [= <- <-]; left; auto].
  destruct (encodable (PasteCreate.content data)) eqn:He; [discriminate|].
  intros [= <- <-]. right. repeat split; [done..|]. by eexists _, _.
Qed.
End CreateFacts.

(** C10. When the content is longer than [MAX_SIZE] and is also empty or
    all whitespace, create answers 413 (ContentTooLarge), not 400
    (EmptyContent): the size check comes first. *)
Theorem create_paste_size_check_first cfg rng fuel now data w :
  MAX_SIZE cfg < len (PasteCreate.content data) ->
  forallb isspace (PasteCreate.content data) = true ->
  create_paste cfg rng fuel now data w = Raise ContentTooLarge w /\
  create_paste cfg rng fuel now data w <> Raise EmptyContent w.
Proof.
  intros H _. rewrite create_paste_too_large by done.
  split; [reflexivity|discriminate].
Qed.

(** C10, at [MAX_SIZE = 4] and five spaces. *)
Lemma create_paste_size_check_first_witness :
  create_paste small_config zeros 1 sample_now
    (PasteCreate.validate (plain_body (lit "     "))) initial_world
  = Raise ContentTooLarge initial_world.
Proof.
  apply (create_paste_size_check_first small_config zeros 1 sample_now
           (PasteCreate.validate (plain_body (lit "     "))) initial_world).
  - vm_compute. reflexivity.
  - vm_compute. reflexivity.
Defined.

(** ** Create: expiry *)

Lemma compute_expires_at_Some now hours expires :
  compute_expires_at now hours = Some expires ->
  expires = match hours with
            | Some h => if 0 <? h then Some (now + h * HOUR) else None
            | None => None
            end.
Proof.
  unfold compute_expires_at, timedelta_hours, datetime_add.
  destruct hours as [h|]; [|by intros [= <-]].
  destruct (0 <? h) eqn:Hpos.
  - apply Z.ltb_lt in Hpos.
    replace (h =? 0) with false by (symmetry; apply Z.eqb_neq; lia).
    cbn [negb andb].
    destruct (TIMEDELTA_MAX_DAYS <? Z.abs (h / 24)); [discriminate|].
    cbv zeta.
    destruct ((now + h * HOUR <? 0) || (DATETIME_MAX <? now + h * HOUR));
      [discriminate|]. by intros [= <-].
  - rewrite andb_false_r. by intros [= <-].
Qed.

(** When the arithmetic stays inside the datetime range, the expiry is
    computed. *)
Lemma compute_expires_at_in_range now h :
  0 <= now -> 0 < h -> now + h * HOUR <= DATETIME_MAX ->
  compute_expires_at now (Some h) = Some (Some (now + h * HOUR)).
Proof.
  intros Hnow Hh Hmax.
  unfold compute_expires_at, timedelta_hours, datetime_add.
  replace (h =? 0) with false by (symmetry; apply Z.eqb_neq; lia).
  replace (0 <? h) with true by (symmetry; apply Z.ltb_lt; lia).
  cbn [negb andb]. cbv zeta.
  assert (h / 24 <= TIMEDELTA_MAX_DAYS) as Hd.
  { apply Z.lt_succ_r, Z.div_lt_upper_bound; [lia|].
    unfold DATETIME_MAX, HOUR, TIMEDELTA_MAX_DAYS in *. lia. }
  assert (0 <= h / 24) by (apply Z.div_pos; lia).
  replace (TIMEDELTA_MAX_DAYS <? Z.abs (h / 24)) with false
    by (symmetry; apply Z.ltb_ge; lia).
  unfold HOUR in *.
  replace (now + h * 3600000000 <? 0) with false
    by (symmetry; apply Z.ltb_ge; lia).
  replace (DATETIME_MAX <? now + h * 3600000000) with false
    by (symmetry; apply Z.ltb_ge; lia).
  reflexivity.
Qed.

(** C9. A created record has [expires_at] exactly when the effective
    [expires_in_hours] (the body's value, or the default when the body
    leaves it out) is positive; it is then [created_at] plus that many
    hours, and so strictly after [created_at]. *)
Theorem create_paste_expires_at cfg rng fuel now body w resp w' :
  create_paste cfg rng fuel now (PasteCreate.validate body) w = Return resp w' ->
  exists m,
    dict_get (PasteResponse.id resp) (pastes w') = Some m /\
    created_at m = now /\
    (is_Some (expires_at m) <->
     exists h, PasteCreate.expires_in_hours (PasteCreate.validate body) = Some h
               /\ 0 < h) /\
    (forall h,
       PasteCreate.expires_in_hours (PasteCreate.validate body) = Some h ->
       0 < h -> expires_at m = Some (created_at m + h * HOUR)) /\
    (forall e, expires_at m = Some e -> created_at m < e).
Proof.
  intros (_ & _ & _ & Hexp & _ & ->)%create_paste_Return.
  apply compute_expires_at_Some in Hexp.
  exists (new_meta now (PasteResponse.expires_at resp) (PasteCreate.validate body)).
  split; [apply dict_get_set_eq|]. split; [reflexivity|].
  cbn [expires_at created_at new_meta]. rewrite Hexp.
  destruct (PasteCreate.expires_in_hours (PasteCreate.validate body)) as [h|].
  - destruct (Z.ltb_spec 0 h) as [Hpos|Hneg].
    + split; [|split].
      * split; [intros _; by exists h|by eexists].
      * by intros ? [= <-] _.
      * intros e [= <-]. unfold HOUR. lia.
    + split; [|split].
      * split; [by intros [? ?]|]. intros (h' & [= <-] & ?). lia.
      * intros ? [= <-] ?. lia.
      * discriminate.
  - split; [|split].
    + split; [by intros [? ?]|]. by intros (? & ? & _).
    + discriminate.
    + discriminate.
Qed.

Lemma create_paste_expires_at_witness :
  exists m,
    dict_get (lit "aaaaaaaa")
      (pastes (store_paste (lit "aaaaaaaa")
                 (new_meta sample_now (Some (sample_now + 168 * HOUR))
                    (PasteCreate.validate (plain_body (lit "a b"))))
                 (lit "a b") initial_world))
    = Some m /\
    expires_at m = Some (created_at m + DEFAULT_EXPIRY_HOURS * HOUR).
Proof.
  destruct (create_paste_expires_at small_config zeros 1 sample_now
              (plain_body (lit "a b")) initial_world _ _ eq_refl)
    as (m & Hm & _ & _ & Hh & _).
  exists m. split; [exact Hm|]. by apply Hh.
Defined.

(** ** List *)

Lemma slice_to_nonneg {A} (stop : Z) (l : list A) :
  0 <= stop -> slice_to stop l = firstn (Z.to_nat stop) l.
Proof.
  intros H. unfold slice_to.
  by replace (stop <? 0) with false by (symmetry; apply Z.ltb_ge; lia).
Qed.

(** Whatever [stop] is, a slice is an initial segment. *)
Lemma slice_to_prefix {A} (stop : Z) (l : list A) :
  exists n, slice_to stop l = firstn n l.
Proof. unfold slice_to. destruct (stop <? 0); eauto. Qed.

(** A create puts its record last in the index. *)
Lemma create_paste_appends cfg rng fuel now data w resp w' :
  create_paste cfg rng fuel now data w = Return resp w' ->
  dict_contains (PasteResponse.id resp) (pastes w) = false /\
  dict_items (pastes w') =
  dict_items (pastes w) ++
  [(PasteResponse.id resp, new_meta now (PasteResponse.expires_at resp) data)].
Proof.
  intros (_ & _ & Hid & _ & _ & ->)%create_paste_Return.
  assert (dict_contains (PasteResponse.id resp) (pastes w) = false) as Hfresh.
  { clear -Hid. revert rng Hid.
    induction fuel as [|fuel IH]; intros rng; simpl; [discriminate|].
    destruct (dict_contains (draw 8 rng) (pastes w)) eqn:E; simpl.
    - apply IH.
    - by intros [= <-]. }
  split; [exact Hfresh|]. simpl. unfold dict_items. by apply dict_set_fresh.
Qed.

Lemma summary_ids cfg (l : list (pystr * meta)) :
  map Summary.id (map (summary cfg) l) = map fst l.
Proof.
  induction l as [|[k m] l IH]; simpl; [reflexivity|]. by rewrite IH.
Qed.

(** C8 as stated fails for a negative limit: with two pastes,
    [limit = -1] yields one summary, and 1 is more than -1. *)
Lemma list_pastes_negative_limit_counterexample :
  exists l w',
    list_pastes default_config (-1) two_pastes_world = Return l w' /\
    length (Listing.pastes l) = 1%nat /\
    ~ (Z.of_nat (length (Listing.pastes l)) <= -1).
Proof.
  eexists _, _. split; [reflexivity|]. split; [reflexivity|].
  vm_compute. intros H. by apply H.
Qed.

(** C8, amended.  For every limit that is not negative, the listing has
    at most [limit] summaries: those of the first [limit] records of the
    index, in index order, which is the order of creation since a create
    puts its record last.  Listing leaves the index, the files and the log of
    storage effects as they were: it reads no content and mutates nothing. *)
Theorem list_pastes_bounded_in_order cfg limit w :
  0 <= limit ->
  exists l,
    list_pastes cfg limit w = Return l w /\
    Z.of_nat (length (Listing.pastes l)) <= limit /\
    Listing.pastes l =
      map (summary cfg) (firstn (Z.to_nat limit) (dict_items (pastes w))) /\
    map Summary.id (Listing.pastes l) =
      firstn (Z.to_nat limit) (dict_keys (pastes w)) /\
    (forall rng fuel now data resp w',
       create_paste cfg rng fuel now data w = Return resp w' ->
       dict_keys (pastes w') = dict_keys (pastes w) ++ [PasteResponse.id resp]).
Proof.
  intros Hlimit. eexists. split; [reflexivity|].
  cbn [Listing.pastes]. rewrite (slice_to_nonneg _ _ Hlimit).
  split; [|split; [reflexivity|split]].
  - rewrite length_map, length_firstn. lia.
  - unfold dict_keys, dict_items. by rewrite summary_ids, firstn_map.
  - intros rng fuel now data resp w' [_ Happ]%create_paste_appends.
    unfold dict_keys, dict_items in *. rewrite Happ, map_app. reflexivity.
Qed.

Lemma list_pastes_bounded_in_order_witness :
  0 <= 1 /\
  exists l,
    list_pastes default_config 1 two_pastes_world = Return l two_pastes_world /\
    map Summary.id (Listing.pastes l) = [lit "aaaaaaaa"].
Proof.
  split; [lia|].
  destruct (list_pastes_bounded_in_order default_config 1 two_pastes_world)
    as (l & Hl & _ & _ & Hids & _); [lia|].
  exists l. split; [exact Hl|]. rewrite Hids. reflexivity.
Defined.

(** ** Readers and delete *)

Section ReaderFacts.
Variable cfg : config.
Implicit Types (w : world) (paste_id k : pystr).

Lemma get_paste_raw_absent paste_id w :
  dict_contains paste_id (pastes w) = false ->
  get_paste_raw paste_id w = Raise NotFound w.
Proof. intros H. unfold get_paste_raw. by rewrite H. Qed.

Lemma get_paste_html_absent paste_id w :
  dict_contains paste_id (pastes w) = false ->
  get_paste_html cfg paste_id w = Raise NotFound w.
Proof. intros H. unfold get_paste_html. by rewrite H. Qed.

Lemma delete_paste_absent paste_id w :
  dict_contains paste_id (pastes w) = false ->
  delete_paste paste_id w = Raise NotFound w.
Proof. intros H. unfold delete_paste. by rewrite H. Qed.

Lemma dict_get_contains {V} k (d : dict V) v :
  dict_get k d = Some v -> dict_contains k d = true.
Proof. intros H. apply dict_contains_get. by eexists. Qed.

(** A read of a live paste whose file is there. *)
Lemma get_paste_raw_live paste_id w m stored :
  dict_get paste_id (pastes w) = Some m ->
  paste_files w !! paste_id = Some stored ->
  get_paste_raw paste_id w =
  Return (universal_newlines stored)
    (if burn_after_read m
     then burn paste_id (emit (EvReadContent paste_id) w)
     else emit (EvReadContent paste_id) w).
Proof.
  intros Hm Hf. unfold get_paste_raw, load_content.
  rewrite (dict_get_contains _ _ _ Hm), Hf. simpl. rewrite Hm.
  by destruct (burn_after_read m).
Qed.

Lemma get_paste_html_live paste_id w m stored :
  dict_get paste_id (pastes w) = Some m ->
  paste_files w !! paste_id = Some stored ->
  exists page,
    Page.highlighted page
      = highlight_code cfg (universal_newlines stored) (language m) /\
    get_paste_html cfg paste_id w =
    Return page
      (if burn_after_read m
       then burn paste_id (emit (EvReadContent paste_id) w)
       else emit (EvReadContent paste_id) w).
Proof.
  intros Hm Hf. unfold get_paste_html, load_content.
  rewrite (dict_get_contains _ _ _ Hm), Hf. simpl. rewrite Hm.
  eexists. split; [|by destruct (burn_after_read m)]. reflexivity.
Qed.

(** The worlds a reader or a delete can leave behind. *)
Lemma get_paste_raw_world paste_id w w' :
  world_of (get_paste_raw paste_id w) = Some w' ->
  w' = w \/ w' = emit (EvReadContent paste_id) w \/
  (dict_contains paste_id (pastes w) = true /\
   w' = burn paste_id (emit (EvReadContent paste_id) w)).
Proof.
  unfold get_paste_raw, load_content.
  destruct (dict_contains paste_id (pastes w)) eqn:Hc; simpl;
    [|intros [= <-]; by left].
  destruct (paste_files w !! paste_id); simpl; [|intros [= <-]; by left].
  destruct (dict_get paste_id (pastes w)) as [m|]; simpl;
    [|intros [= <-]; right; by left].
  destruct (burn_after_read m); simpl; intros [= <-]; right; [by right|by left].
Qed.

Lemma get_paste_html_world paste_id w w' :
  world_of (get_paste_html cfg paste_id w) = Some w' ->
  w' = w \/ w' = emit (EvReadContent paste_id) w \/
  (dict_contains paste_id (pastes w) = true /\
   w' = burn paste_id (emit (EvReadContent paste_id) w)).
Proof.
  unfold get_paste_html, load_content.
  destruct (dict_contains paste_id (pastes w)) eqn:Hc; simpl;
    [|intros [= <-]; by left].
  destruct (paste_files w !! paste_id); simpl; [|intros [= <-]; by left].
  destruct (dict_get paste_id (pastes w)) as [m|]; simpl;
    [|intros [= <-]; right; by left].
  destruct (burn_after_read m); simpl; intros [= <-]; right; [by right|by left].
Qed.

Lemma delete_paste_world paste_id w w' :
  world_of (delete_paste paste_id w) = Some w' ->
  w' = w \/ (dict_contains paste_id (pastes w) = true /\ w' = burn paste_id w).
Proof.
  unfold delete_paste.
  destruct (dict_contains paste_id (pastes w)) eqn:Hc; simpl;
    intros [= <-]; [by right|by left].
Qed.

(** [KeyError] cannot come out of a reader: the membership test comes
    first. *)
Lemma get_paste_raw_no_KeyError paste_id w w' :
  get_paste_raw paste_id w <> Raise KeyError w'.
Proof.
  unfold get_paste_raw, load_content.
  destruct (dict_contains paste_id (pastes w)) eqn:Hc; simpl; [|discriminate].
  destruct (paste_files w !! paste_id); simpl; [|discriminate].
  apply dict_contains_get in Hc as [m Hm]. rewrite Hm.
  destruct (burn_after_read m); discriminate.
Qed.
End ReaderFacts.

(** ** The expiry sweep *)

Section SweepFacts.
Implicit Types (w : world) (k : pystr) (ks : list pystr).

Lemma dict_contains_fold_set {V} k (l acc : list (pystr * V)) :
  dict_contains k
    (fold_left (fun d kv => dict_set (fst kv) (snd kv) d) l acc)
  = dict_contains k acc || dict_contains k l.
Proof.
  revert acc. induction l as [|[k' v] l IH]; intros acc; simpl.
  - by rewrite orb_false_r.
  - rewrite IH, dict_contains_set.
    destruct (str_eqb k k'), (dict_contains k acc); reflexivity.
Qed.

Lemma dict_contains_of_items {V} k (l : list (pystr * V)) :
  dict_contains k (dict_of_items l) = dict_contains k l.
Proof. unfold dict_of_items. by rewrite dict_contains_fold_set. Qed.

Lemma pastes_purged ks w :
  pastes (fold_left purge ks w) = fold_left (fun d k => dict_del k d) ks (pastes w).
Proof. revert w. induction ks as [|k ks IH]; intros w; simpl; [done|]. by rewrite IH. Qed.

Lemma paste_files_purged ks w :
  paste_files (fold_left purge ks w)
  = fold_left (fun f k => delete k f) ks (paste_files w).
Proof. revert w. induction ks as [|k ks IH]; intros w; simpl; [done|]. by rewrite IH. Qed.

Lemma index_file_purged ks w :
  index_file (fold_left purge ks w) = index_file w.
Proof. revert w. induction ks as [|k ks IH]; intros w; simpl; [done|]. by rewrite IH. Qed.

Lemma log_purged ks w :
  log (fold_left purge ks w) = log w ++ map EvUnlink ks.
Proof.
  revert w. induction ks as [|k ks IH]; intros w; simpl.
  - by rewrite app_nil_r.
  - rewrite IH. simpl. by rewrite <- app_assoc.
Qed.

(** Deleting a list of keys keeps the entries under the other keys. *)
Lemma fold_dict_del {V} ks (d : dict V) :
  fold_left (fun d k => dict_del k d) ks d
  = List.filter (fun kv => negb (existsb (fun k => str_eqb k (fst kv)) ks)) d.
Proof.
  revert d. induction ks as [|k ks IH]; intros d; simpl.
  - induction d as [|kv d IHd]; simpl; [reflexivity|]. by rewrite <- IHd.
  - rewrite IH. unfold dict_del. clear IH.
    induction d as [|kv d IHd]; simpl; [reflexivity|].
    destruct (str_eqb k (fst kv)); simpl; [exact IHd|].
    destruct (existsb _ ks); simpl; [exact IHd|]. by rewrite IHd.
Qed.

Lemma lookup_fold_delete ks (f : gmap pystr pystr) k :
  fold_left (fun f k => delete k f) ks f !! k
  = if existsb (fun k' => str_eqb k' k) ks then None else f !! k.
Proof.
  revert f. induction ks as [|k' ks IH]; intros f; simpl; [reflexivity|].
  rewrite IH. destruct (str_eqb k' k) eqn:E; simpl.
  - apply str_eqb_eq in E. subst. rewrite lookup_delete_eq.
    by destruct (existsb _ ks).
  - apply str_eqb_neq in E. by rewrite lookup_delete_ne.
Qed.

(** With unique keys, the keys in [expired] single out the expired
    records. *)
Lemma expired_keys_spec now (d : dict meta) k m :
  dict_wf d -> (k, m) ∈ d ->
  existsb (fun k' => str_eqb k' k) (expired_keys now d) = is_expired now m.
Proof.
  intros Hwf Hin. unfold expired_keys, dict_items.
  destruct (is_expired now m) eqn:E.
  - apply existsb_exists. exists k. split; [|apply str_eqb_refl].
    apply in_map_iff. exists (k, m). split; [reflexivity|].
    apply filter_In. split; [by apply list_elem_of_In|exact E].
  - apply not_true_is_false. intros (k' & Hk' & ->%str_eqb_eq)%existsb_exists.
    apply in_map_iff in Hk' as ([k2 m2] & Hk2 & [Hin2 Hexp]%filter_In).
    simpl in *. subst k2. apply list_elem_of_In in Hin2.
    assert (m2 = m) as ->; [|congruence].
    apply (dict_In_get _ _ _ Hwf) in Hin, Hin2. congruence.
Qed.

Lemma sweep_filter now (d : dict meta) :
  dict_wf d ->
  fold_left (fun d k => dict_del k d) (expired_keys now d) d
  = List.filter (fun kv => negb (is_expired now (snd kv))) d.
Proof.
  intros Hwf. rewrite fold_dict_del. apply filter_ext_in.
  intros [k m] Hin%list_elem_of_In. simpl.
  by rewrite (expired_keys_spec now d k m Hwf Hin).
Qed.

Lemma dict_wf_filter {V} (p : pystr * V -> bool) (d : dict V) :
  dict_wf d -> dict_wf (List.filter p d).
Proof.
  unfold dict_wf, dict_keys. induction d as [|[k v] d IH]; simpl; [done|].
  intros [Hk Hd]%NoDup_cons. destruct (p (k, v)); simpl; [|by apply IH].
  apply NoDup_cons. split; [|by apply IH].
  intros ([k' v'] & -> & Hin%list_elem_of_In%filter_In)%list_elem_of_fmap.
  apply Hk, list_elem_of_fmap. exists (k', v'). split; [done|].
  apply list_elem_of_In, Hin.
Qed.

Lemma dict_contains_filter {V} (p : pystr * V -> bool) (d : dict V) k :
  dict_contains k (List.filter p d) = true -> dict_contains k d = true.
Proof.
  unfold dict_contains. rewrite !existsb_exists.
  intros (kv & [Hin _]%filter_In & E). by exists kv.
Qed.

(** [load_index] when the snapshot file is there. *)
Lemma load_index_Some now w snapshot :
  index_file w = Some snapshot ->
  let loaded := json_loads snapshot in
  let expired := expired_keys now loaded in
  let kept := List.filter (fun kv => negb (is_expired now (snd kv))) loaded in
  pastes (load_index now w) = kept /\
  (forall k, paste_files (load_index now w) !! k =
             if existsb (fun k' => str_eqb k' k) expired
             then None else paste_files w !! k) /\
  index_file (load_index now w) =
    match expired with [] => Some snapshot | _ :: _ => Some (json_dumps kept) end /\
  log (load_index now w) =
    log w ++ [EvReadIndex] ++ map EvUnlink expired ++
    match expired with [] => [] | _ :: _ => [EvWriteIndex] end.
Proof.
  intros Hsnap loaded expired kept. unfold load_index. rewrite Hsnap.
  cbn [pastes emit set_pastes]. fold loaded. fold expired.
  set (w1 := emit EvReadIndex (set_pastes loaded w)).
  assert (pastes (fold_left purge expired w1) = kept) as Hkept.
  { rewrite pastes_purged. apply sweep_filter, dict_of_items_wf. }
  assert (forall k, paste_files (fold_left purge expired w1) !! k =
             if existsb (fun k' => str_eqb k' k) expired
             then None else paste_files w !! k) as Hfiles.
  { intros k. rewrite paste_files_purged. apply lookup_fold_delete. }
  assert (log (fold_left purge expired w1)
          = log w ++ [EvReadIndex] ++ map EvUnlink expired) as Hlog.
  { rewrite log_purged. simpl. by rewrite <- app_assoc. }
  destruct expired as [|k0 ks] eqn:E.
  - split; [exact Hkept|]. split; [exact Hfiles|]. split.
    + by rewrite index_file_purged.
    + rewrite Hlog. simpl. reflexivity.
  - cbn [save_index pastes paste_files index_file log emit set_index_file].
    split; [exact Hkept|]. split; [exact Hfiles|]. split.
    + by rewrite Hkept.
    + rewrite Hlog. by rewrite <- !app_assoc.
Qed.

Lemma load_index_None now w : index_file w = None -> load_index now w = w.
Proof. intros H. unfold load_index. by rewrite H. Qed.
End SweepFacts.

(** ** Burn after read *)

Section BurnFacts.
Variable cfg : config.
Implicit Types (w : world) (paste_id k : pystr).

Lemma forgotten_emit paste_id e w :
  forgotten paste_id w -> forgotten paste_id (emit e w).
Proof. by intros [H1 H2]. Qed.

Lemma forgotten_saved paste_id w :
  dict_contains paste_id (pastes w) = false ->
  index_file w = Some (json_dumps (pastes w)) ->
  forgotten paste_id w.
Proof.
  intros H Hi. split; [exact H|]. rewrite Hi. intros ? [= <-].
  unfold json_loads, json_dumps, dict_items. by rewrite dict_contains_of_items.
Qed.

Lemma burn_forgets paste_id w : forgotten paste_id (burn paste_id w).
Proof. apply forgotten_saved; [apply dict_contains_del_eq|reflexivity]. Qed.

Lemma burn_unlinks paste_id w : paste_files (burn paste_id w) !! paste_id = None.
Proof. apply lookup_delete_eq. Qed.

Lemma forgotten_burn paste_id k w :
  forgotten paste_id w -> forgotten paste_id (burn k w).
Proof.
  intros [H _]. apply forgotten_saved; [|reflexivity]. simpl.
  by rewrite dict_contains_del, H, andb_false_r.
Qed.

Lemma forgotten_startup paste_id now w :
  forgotten paste_id w -> forgotten paste_id (startup now w).
Proof.
  intros [_ Hsnap]. unfold startup.
  destruct (index_file w) as [snapshot|] eqn:Hi.
  - assert (index_file (boot w) = Some snapshot) as Hb by exact Hi.
    destruct (load_index_Some now (boot w) snapshot Hb) as (Hp & _ & Hf & _).
    assert (dict_contains paste_id (pastes (load_index now (boot w))) = false) as Hc.
    { rewrite Hp. apply not_true_is_false. intros Hc%dict_contains_filter.
      rewrite (Hsnap snapshot eq_refl) in Hc. discriminate. }
    split; [exact Hc|]. rewrite Hf.
    destruct (expired_keys now (json_loads snapshot)).
    + intros ? [= <-]. by apply Hsnap.
    + intros ? [= <-]. rewrite <- Hp.
      unfold json_loads, json_dumps, dict_items.
      by rewrite dict_contains_of_items.
  - rewrite load_index_None by exact Hi. split; [reflexivity|].
    simpl. rewrite Hi. discriminate.
Qed.

Lemma forgotten_handle paste_id r w w' :
  forgotten paste_id w ->
  issues cfg paste_id r w = false ->
  handle cfg r w = Some w' ->
  forgotten paste_id w'.
Proof.
  intros Hf Hissue Hh. destruct r as [rng fuel now data|limit|k|k|k|now];
    simpl in Hh, Hissue.
  - destruct (create_paste cfg rng fuel now data w) as [resp w1|e w1|] eqn:Hc;
      simpl in Hh, Hissue; [| |discriminate]; injection Hh as <-;
      rewrite (proj1 Hf) in Hissue; simpl in Hissue.
    + apply create_paste_Return in Hc as (_ & _ & _ & _ & _ & Hw1).
      apply forgotten_saved; [exact Hissue|by subst w1].
    + apply create_paste_Raise in Hc
        as [[-> _]|(_ & _ & _ & _ & k & expires & _ & _ & Hw1)]; [exact Hf|].
      split; [exact Hissue|]. subst w1. exact (proj2 Hf).
  - by injection Hh as <-.
  - apply get_paste_raw_world in Hh as [->|[->|[_ ->]]];
      [done|by apply forgotten_emit|by apply forgotten_burn, forgotten_emit].
  - apply get_paste_html_world in Hh as [->|[->|[_ ->]]];
      [done|by apply forgotten_emit|by apply forgotten_burn, forgotten_emit].
  - apply delete_paste_world in Hh as [->|[_ ->]];
      [done|by apply forgotten_burn].
  - injection Hh as <-. by apply forgotten_startup.
Qed.

Lemma forgotten_serves paste_id rs w w' :
  serves_without cfg paste_id w rs w' ->
  forgotten paste_id w -> forgotten paste_id w'.
Proof.
  induction 1 as [w|r rs w w1 w2 Hissue Hh _ IH]; [done|].
  intros Hf. apply IH. by eapply forgotten_handle.
Qed.
End BurnFacts.

Lemma universal_newlines_no_CR (s : pystr) :
  forallb (fun c => negb (c =? CR)%N) s = true -> universal_newlines s = s.
Proof.
  induction s as [|c t IH]; [reflexivity|].
  cbn [forallb]. intros [Hc Ht]%andb_true_iff.
  cbn [universal_newlines]. apply negb_true_iff in Hc. rewrite Hc.
  by rewrite (IH Ht).
Qed.

(** A create with [burn_after_read] set leaves a record with the flag set
    and a file holding the content. *)
Lemma create_paste_stores cfg rng fuel now data w resp w' :
  create_paste cfg rng fuel now data w = Return resp w' ->
  exists m,
    dict_get (PasteResponse.id resp) (pastes w') = Some m /\
    burn_after_read m = PasteCreate.burn_after_read data /\
    paste_files w' !! PasteResponse.id resp = Some (PasteCreate.content data).
Proof.
  intros (_ & _ & _ & _ & _ & ->)%create_paste_Return.
  eexists. split; [apply dict_get_set_eq|]. split; [reflexivity|].
  apply lookup_insert_eq.
Qed.

(** C1 as stated fails twice.  A burn paste created with ["a\r\nb"] gives
    ["a\nb"] to its only read, and its file is gone with that read.  And
    after a burn paste was read, a create can draw the same id again: the
    next read of the id then returns the new content, not NotFound. *)
Lemma burn_after_read_counterexample :
  (exists resp w1 w2,
     create_paste default_config zeros 1 sample_now
       (PasteCreate.validate (burn_body crlf_text)) initial_world
     = Return resp w1 /\
     get_paste_raw (PasteResponse.id resp) w1
     = Return (lit "a" ++ [LF] ++ lit "b") w2 /\
     lit "a" ++ [LF] ++ lit "b" <> crlf_text /\
     paste_files w2 !! PasteResponse.id resp = None) /\
  (exists w3 w4,
     serve default_config
       [Create zeros 1 sample_now (PasteCreate.validate (burn_body (lit "secret")));
        ReadRaw (lit "aaaaaaaa");
        Create zeros 1 sample_now (PasteCreate.validate (plain_body (lit "other")))]
       initial_world
     = Some w3 /\
     get_paste_raw (lit "aaaaaaaa") w3 = Return (lit "other") w4).
Proof.
  split.
  - eexists _, _, _. split; [reflexivity|]. split; [vm_compute; reflexivity|].
    split; [discriminate|]. vm_compute. reflexivity.
  - eexists _, _. split; [vm_compute; reflexivity|]. vm_compute. reflexivity.
Qed.

(** C1, amended.  A successful create with [burn_after_read] set leaves a
    record with the flag set and a file holding the content.  For such a
    live paste whose stored text has no carriage return, the first
    successful read, raw or rendered, returns that text, and the world it
    returns has neither the record nor the file, with the snapshot rewritten
    without it.  From then on every read of the id is NotFound, whatever
    requests are served in between, until a create hands the id out
    again. *)
Theorem burn_after_read_once cfg :
  (forall rng fuel now data w resp w1,
     create_paste cfg rng fuel now data w = Return resp w1 ->
     PasteCreate.burn_after_read data = true ->
     exists m,
       dict_get (PasteResponse.id resp) (pastes w1) = Some m /\
       burn_after_read m = true /\
       paste_files w1 !! PasteResponse.id resp = Some (PasteCreate.content data)) /\
  (forall paste_id w m stored,
     dict_get paste_id (pastes w) = Some m ->
     burn_after_read m = true ->
     paste_files w !! paste_id = Some stored ->
     no_CR stored = true ->
     exists w1 page w2,
       get_paste_raw paste_id w = Return stored w1 /\
       get_paste_html cfg paste_id w = Return page w2 /\
       Page.highlighted page = highlight_code cfg stored (language m) /\
       forall w', w' = w1 \/ w' = w2 ->
         dict_contains paste_id (pastes w') = false /\
         paste_files w' !! paste_id = None /\
         index_file w' = Some (json_dumps (pastes w')) /\
         forall rs w'',
           serves_without cfg paste_id w' rs w'' ->
           get_paste_raw paste_id w'' = Raise NotFound w'' /\
           get_paste_html cfg paste_id w'' = Raise NotFound w'').
Proof.
  split.
  - intros rng fuel now data w resp w1 Hcreate Hflag.
    destruct (create_paste_stores _ _ _ _ _ _ _ _ Hcreate) as (m & Hm & Hb & Hf).
    exists m. split; [exact Hm|]. split; [congruence|exact Hf].
  - intros paste_id w m stored Hm Hburn Hfile Hcr.
    destruct (get_paste_html_live cfg paste_id w m stored Hm Hfile)
      as (page & Hpage & Hhtml).
    rewrite Hburn in Hhtml.
    pose proof (get_paste_raw_live paste_id w m stored Hm Hfile) as Hraw.
    rewrite Hburn in Hraw.
    rewrite (universal_newlines_no_CR stored Hcr) in Hraw, Hpage.
    exists (burn paste_id (emit (EvReadContent paste_id) w)), page,
           (burn paste_id (emit (EvReadContent paste_id) w)).
    split; [exact Hraw|]. split; [exact Hhtml|]. split; [exact Hpage|].
    intros w' Hw'.
    assert (w' = burn paste_id (emit (EvReadContent paste_id) w))
      as -> by (by destruct Hw').
    split; [apply dict_contains_del_eq|]. split; [apply burn_unlinks|].
    split; [reflexivity|].
    intros rs w'' Hserve.
    pose proof (forgotten_serves cfg paste_id rs _ _ Hserve
                  (burn_forgets paste_id _)) as [Hgone _].
    split; [by apply get_paste_raw_absent|by apply get_paste_html_absent].
Qed.

Lemma burn_after_read_once_witness :
  exists w1,
    get_paste_raw (lit "aaaaaaaa") burn_world = Return (lit "secret") w1 /\
    get_paste_raw (lit "aaaaaaaa") w1 = Raise NotFound w1 /\
    get_paste_html default_config (lit "aaaaaaaa") w1 = Raise NotFound w1.
Proof.
  destruct (proj2 (burn_after_read_once default_config) (lit "aaaaaaaa")
              burn_world
              (new_meta sample_now (Some (sample_now + DEFAULT_EXPIRY_HOURS * HOUR))
                 (PasteCreate.validate (burn_body (lit "secret"))))
              (lit "secret"))
    as (w1 & page & w2 & Hraw & _ & _ & Hafter).
  - vm_compute. reflexivity.
  - reflexivity.
  - vm_compute. reflexivity.
  - reflexivity.
  - exists w1. split; [exact Hraw|].
    destruct (Hafter w1 (or_introl eq_refl)) as (_ & _ & _ & Hlater).
    apply (Hlater [] w1). constructor.
Defined.

(** ** Round trip *)

(** What a raw read gives right after a create. *)
Lemma create_then_read_raw cfg rng fuel now data w resp w' :
  create_paste cfg rng fuel now data w = Return resp w' ->
  exists w'',
    get_paste_raw (PasteResponse.id resp) w'
    = Return (universal_newlines (PasteCreate.content data)) w''.
Proof.
  intros (m & Hm & _ & Hf)%create_paste_stores.
  rewrite (get_paste_raw_live _ _ _ _ Hm Hf). by eexists.
Qed.

(** Content without a carriage return does come back as submitted. *)
Lemma create_then_read_raw_no_CR cfg rng fuel now data w resp w' :
  create_paste cfg rng fuel now data w = Return resp w' ->
  forallb (fun c => negb (c =? CR)%N) (PasteCreate.content data) = true ->
  exists w'',
    get_paste_raw (PasteResponse.id resp) w'
    = Return (PasteCreate.content data) w''.
Proof.
  intros Hc Hcr. destruct (create_then_read_raw _ _ _ _ _ _ _ _ Hc) as [w'' H].
  exists w''. by rewrite (universal_newlines_no_CR _ Hcr) in H.
Qed.

(** C2, at the content ["a\r\nb"]: the create succeeds, and the raw read
    that follows returns ["a\nb"], which is not what was submitted. *)
Theorem raw_read_rewrites_carriage_returns :
  exists resp w1 w2,
    create_paste default_config zeros 1 sample_now
      (PasteCreate.validate (plain_body crlf_text)) initial_world
    = Return resp w1 /\
    get_paste_raw (PasteResponse.id resp) w1
    = Return (lit "a" ++ [LF] ++ lit "b") w2 /\
    lit "a" ++ [LF] ++ lit "b" <> crlf_text.
Proof.
  eexists _, _, _. split; [reflexivity|]. split.
  - vm_compute. reflexivity.
  - discriminate.
Qed.

(** ** Create: order of effects *)

Lemma store_paste_trace_encodable paste_id m content w :
  encodable content = true ->
  store_paste_trace paste_id m content w
  = [w; insert_record paste_id m w;
     write_file paste_id content (insert_record paste_id m w);
     store_paste paste_id m content w].
Proof. intros H. unfold store_paste_trace, save_content. by rewrite H. Qed.

Lemma create_paste_trace cfg rng fuel now data w resp w' :
  create_paste cfg rng fuel now data w = Return resp w' ->
  let m := new_meta now (PasteResponse.expires_at resp) data in
  last (store_paste_trace (PasteResponse.id resp) m (PasteCreate.content data) w)
  = Some w'.
Proof.
  intros H. pose proof (create_paste_Return_encodable _ _ _ _ _ _ _ _ H) as He.
  apply create_paste_Return in H as (_ & _ & _ & _ & _ & ->).
  simpl. by rewrite store_paste_trace_encodable.
Qed.


(** ** Index and content store stay in step *)

Section Invariant.
Variable cfg : config.
Implicit Types (w : world) (paste_id k : pystr).








Lemma snapshot_current_saved w : snapshot_current (save_index w).
Proof. reflexivity. Qed.

Lemma snapshot_current_emit e w :
  snapshot_current w -> snapshot_current (emit e w).
Proof. done. Qed.





Lemma serve_reachable rs w w' :
  reachable cfg w -> serve cfg rs w = Some w' -> reachable cfg w'.
Proof.
  revert w. induction rs as [|r rs IH]; intros w Hw; simpl.
  - by intros [= <-].
  - destruct (handle cfg r w) as [w1|] eqn:Hh; [|discriminate].
    apply IH. by apply (reachable_step cfg r w w1).
Qed.
End Invariant.

Lemma generate_id_fresh fuel id_length rng (d : dict meta) paste_id :
  generate_id fuel id_length rng d = Some paste_id ->
  dict_contains paste_id d = false.
Proof.
  revert rng. induction fuel as [|fuel IH]; intros rng; simpl; [discriminate|].
  destruct (dict_contains (draw id_length rng) d) eqn:E; simpl.
  - apply IH.
  - by intros [= <-].
Qed.




(** ** Load *)

Lemma is_expired_spec now (m : meta) :
  is_expired now m = true <-> exists e, expires_at m = Some e /\ e < now.
Proof.
  unfold is_expired. destruct (expires_at m) as [e|].
  - rewrite Z.ltb_lt. split; [intros H; by exists e|by intros (? & [= <-] & ?)].
  - split; [discriminate|by intros (? & ? & _)].
Qed.

Lemma expired_keys_nil now (d : dict meta) :
  expired_keys now d = [] <->
  List.filter (fun kv => is_expired now (snd kv)) d = [].
Proof.
  unfold expired_keys, dict_items.
  destruct (List.filter _ d); simpl; split; congruence.
Qed.

Lemma existsb_keys_contains {V} k (l : dict V) :
  existsb (fun k' => str_eqb k' k) (dict_keys l) = dict_contains k l.
Proof.
  unfold dict_keys, dict_contains.
  induction l as [|[k' v] l IH]; simpl; [reflexivity|].
  by rewrite IH, str_eqb_sym.
Qed.

(** C7. Without a snapshot file [load_index] does nothing.  With one, it
    reads it, keeps - in order - exactly the records that are not expired
    (expired: [expires_at] present and earlier than now), unlinks the
    content files of the removed records and no others, and writes the
    snapshot again if and only if some record was removed.  Afterwards no
    record of the index has an [expires_at] earlier than the load time; this
    also holds for [startup], where the index is empty before the load. *)
Theorem load_index_sweep now w :
  (index_file w = None -> load_index now w = w) /\
  (forall snapshot,
     index_file w = Some snapshot ->
     let loaded := json_loads snapshot in
     let removed := List.filter (fun kv => is_expired now (snd kv)) loaded in
     pastes (load_index now w)
       = List.filter (fun kv => negb (is_expired now (snd kv))) loaded /\
     (forall k m, (k, m) ∈ pastes (load_index now w) <->
        (k, m) ∈ loaded /\ ~ (exists e, expires_at m = Some e /\ e < now)) /\
     (forall k, paste_files (load_index now w) !! k =
        if dict_contains k removed then None else paste_files w !! k) /\
     log (load_index now w) =
       log w ++ [EvReadIndex] ++ map EvUnlink (dict_keys removed) ++
       match removed with [] => [] | _ :: _ => [EvWriteIndex] end /\
     (EvWriteIndex ∈ drop (length (log w)) (log (load_index now w))
      <-> removed <> []) /\
     index_file (load_index now w) =
       match removed with
       | [] => Some snapshot
       | _ :: _ => Some (json_dumps (pastes (load_index now w)))
       end /\
     (forall k m e, (k, m) ∈ pastes (load_index now w) ->
        expires_at m = Some e -> now <= e)) /\
  (forall k m e, (k, m) ∈ pastes (startup now w) ->
     expires_at m = Some e -> now <= e).
Proof.
  assert (forall w snapshot, index_file w = Some snapshot ->
          forall k m, (k, m) ∈ pastes (load_index now w) <->
            (k, m) ∈ json_loads snapshot /\
            ~ (exists e, expires_at m = Some e /\ e < now)) as Hkept.
  { intros w0 snapshot Hi k m.
    destruct (load_index_Some now w0 snapshot Hi) as (-> & _).
    rewrite !list_elem_of_In, filter_In, <- is_expired_spec. simpl.
    destruct (is_expired now m); simpl; split; intros [? ?]; split;
      congruence. }
  assert (forall w snapshot, index_file w = Some snapshot ->
          forall k m e, (k, m) ∈ pastes (load_index now w) ->
            expires_at m = Some e -> now <= e) as Hfresh.
  { intros w0 snapshot Hi k m e [_ Hne]%(Hkept w0 snapshot Hi) He.
    destruct (Z.le_gt_cases now e) as [?|Hlt]; [done|].
    exfalso. apply Hne. by exists e. }
  split; [apply load_index_None|]. split.
  - intros snapshot Hi loaded removed.
    destruct (load_index_Some now w snapshot Hi) as (Hp & Hf & Hidx & Hlog).
    fold loaded in Hp, Hf, Hidx, Hlog.
    assert (expired_keys now loaded = dict_keys removed) as Hkeys by reflexivity.
    rewrite Hkeys in Hf, Hidx, Hlog.
    clearbody removed.
    split; [exact Hp|]. split; [by apply Hkept|].
    split; [intros k; by rewrite Hf, existsb_keys_contains|].
    assert (log (load_index now w) =
            log w ++ [EvReadIndex] ++ map EvUnlink (dict_keys removed) ++
            match removed with [] => [] | _ :: _ => [EvWriteIndex] end) as Hlog'.
    { rewrite Hlog. by destruct removed. }
    split; [exact Hlog'|]. split; [|split].
    + rewrite Hlog', drop_app_length.
      destruct removed as [|kv l] eqn:E.
      * split; [|done]. simpl. intros H%list_elem_of_singleton. discriminate.
      * split; [done|]. intros _.
        apply elem_of_app. right. apply elem_of_app. right.
        by apply list_elem_of_singleton.
    + rewrite Hidx, Hp. by destruct removed.
    + by apply (Hfresh w snapshot).
  - intros k m e. unfold startup.
    destruct (index_file w) as [snapshot|] eqn:Hi.
    + by apply (Hfresh (boot w) snapshot).
    + rewrite load_index_None by exact Hi. simpl. by intros ?%elem_of_nil.
Qed.

Lemma load_index_sweep_witness :
  index_file (boot stale_world)
    = Some (json_dumps (pastes stale_world)) /\
  dict_keys (pastes (startup (sample_now + 2 * HOUR) stale_world))
    = [lit "bbbbbbbb"].
Proof.
  split; [reflexivity|].
  destruct (load_index_sweep (sample_now + 2 * HOUR) (boot stale_world))
    as (_ & Hsome & _).
  destruct (Hsome (json_dumps (pastes stale_world)) eq_refl) as (Hp & _).
  unfold startup. rewrite Hp. vm_compute. reflexivity.
Defined.

(** ** Id generation *)

Section GenerateFacts.
Implicit Types (rng : nat -> nat) (d : dict meta) (n : nat).

Lemma secrets_choice_in_alphabet r : existsb (N.eqb (secrets_choice r)) alphabet = true.
Proof.
  unfold secrets_choice. apply existsb_exists.
  exists (nth (r mod length alphabet) alphabet 0%N).
  split; [|apply N.eqb_refl]. apply nth_In, Nat.mod_upper_bound. discriminate.
Qed.

Lemma draw_valid id_length rng : is_valid_id id_length (draw id_length rng) = true.
Proof.
  unfold is_valid_id, draw. rewrite length_map, length_seq, Nat.eqb_refl.
  simpl. apply forallb_forall. intros c (j & <- & _)%in_map_iff.
  apply secrets_choice_in_alphabet.
Qed.

Lemma generate_id_valid fuel id_length rng d paste_id :
  generate_id fuel id_length rng d = Some paste_id ->
  is_valid_id id_length paste_id = true.
Proof.
  revert rng. induction fuel as [|fuel IH]; intros rng; simpl; [discriminate|].
  destruct (dict_contains (draw id_length rng) d); simpl.
  - apply IH.
  - intros [= <-]. apply draw_valid.
Qed.

Lemma candidate_0 id_length rng : candidate id_length rng 0 = draw id_length rng.
Proof. reflexivity. Qed.

Lemma candidate_S id_length rng n :
  candidate id_length rng (S n)
  = candidate id_length (advance id_length rng) n.
Proof.
  unfold candidate, draw, advance. apply map_ext. intros j.
  f_equal. f_equal. lia.
Qed.

(** If round [n] draws a free id, the loop has returned by then. *)
Lemma generate_id_by_round n id_length rng d :
  dict_contains (candidate id_length rng n) d = false ->
  exists paste_id, generate_id (S n) id_length rng d = Some paste_id.
Proof.
  revert rng. induction n as [|n IH]; intros rng Hfree.
  - rewrite candidate_0 in Hfree. simpl. rewrite Hfree. by eexists.
  - rewrite candidate_S in Hfree. cbn [generate_id].
    destruct (dict_contains (draw id_length rng) d); simpl; [|by eexists].
    by apply IH.
Qed.

(** A source that is not fair can keep the loop going although free ids
    exist: with every draw 0 and ["aaaaaaaa"] taken, no round returns. *)
Lemma generate_id_unfair_loops fuel :
  generate_id fuel 8 zeros (pastes two_pastes_world) = None.
Proof. induction fuel as [|fuel IH]; [reflexivity|exact IH]. Qed.

(** More fuel does not change a result. *)
Lemma generate_id_more_fuel fuel fuel' id_length rng d paste_id :
  generate_id fuel id_length rng d = Some paste_id ->
  (fuel <= fuel')%nat ->
  generate_id fuel' id_length rng d = Some paste_id.
Proof.
  revert fuel' rng. induction fuel as [|fuel IH]; intros fuel' rng;
    [discriminate|].
  intros H Hle. destruct fuel' as [|fuel']; [lia|]. simpl in *.
  destruct (dict_contains (draw id_length rng) d); simpl in *; [|exact H].
  apply (IH fuel' _ H). lia.
Qed.

(** On a saturated index the loop never returns. *)
Lemma generate_id_saturated fuel id_length rng d :
  saturated id_length d -> generate_id fuel id_length rng d = None.
Proof.
  intros Hsat. revert rng. induction fuel as [|fuel IH]; intros rng; simpl;
    [reflexivity|].
  rewrite (Hsat _ (draw_valid id_length rng)). simpl. apply IH.
Qed.

(** The counting source is fair. *)
Lemma digits_undigits ds :
  Forall (fun x => (x < 36)%nat) ds -> digits (undigits ds) (length ds) = ds.
Proof.
  induction 1 as [|x ds Hx _ IH]; [reflexivity|].
  cbn [digits undigits length].
  replace (x + 36 * undigits ds)%nat with (x + undigits ds * 36)%nat by lia.
  rewrite Nat.Div0.mod_add, Nat.div_add by lia.
  rewrite Nat.mod_small, Nat.div_small by lia. simpl. by rewrite IH.
Qed.

Lemma length_digits n id_length : length (digits n id_length) = id_length.
Proof.
  revert n. induction id_length as [|l IH]; intros n; simpl; [done|].
  by rewrite IH.
Qed.

Lemma map_nth_seq {A} (f : nat -> A) (ds : list nat) len :
  length ds = len ->
  map (fun j => f (nth j ds O)) (seq 0 len) = map f ds.
Proof.
  intros <-. induction ds as [|x ds IH]; simpl; [reflexivity|].
  f_equal. rewrite <- seq_shift, map_map. exact IH.
Qed.

Lemma candidate_counting id_length n :
  candidate id_length (counting_rng id_length) n
  = map secrets_choice (digits n id_length).
Proof.
  unfold candidate, draw, advance, counting_rng.
  destruct id_length as [|l]; [reflexivity|].
  set (len := S l).
  rewrite <- (map_nth_seq secrets_choice (digits n len) len (length_digits n len)).
  apply map_ext_in. intros j Hj%in_seq.
  rewrite (Nat.add_comm (n * len) j), Nat.Div0.mod_add, Nat.div_add by lia.
  rewrite Nat.mod_small, Nat.div_small by lia. reflexivity.
Qed.

Lemma alphabet_choice c :
  existsb (N.eqb c) alphabet = true ->
  exists r, (r < 36)%nat /\ secrets_choice r = c.
Proof.
  intros (c' & Hin & ->%N.eqb_eq)%existsb_exists.
  apply (In_nth _ _ 0%N) in Hin as (r & Hr & <-).
  exists r. split; [exact Hr|]. unfold secrets_choice.
  by rewrite Nat.mod_small.
Qed.

Lemma valid_id_digits id_length s :
  is_valid_id id_length s = true ->
  exists ds, length ds = id_length /\ Forall (fun x => (x < 36)%nat) ds /\
             map secrets_choice ds = s.
Proof.
  unfold is_valid_id. intros [Hlen%Nat.eqb_eq Hall]%andb_true_iff.
  subst id_length. induction s as [|c s IH]; cbn [forallb length] in *.
  - by exists [].
  - apply andb_true_iff in Hall as [Hc Hs].
    destruct (IH Hs) as (ds & Hl & Hds & <-).
    destruct (alphabet_choice c Hc) as (r & Hr & <-).
    exists (r :: ds). cbn [length map].
    split; [by rewrite length_map|]. split; [by constructor|reflexivity].
Qed.

Lemma counting_rng_fair id_length : fair id_length (counting_rng id_length).
Proof.
  intros s (ds & Hlen & Hds & <-)%valid_id_digits.
  exists (undigits ds). rewrite candidate_counting, <- Hlen.
  by rewrite digits_undigits.
Qed.
End GenerateFacts.

(** C6.  The loop only returns an id that is not in the index it was run
    against, so the id a create returns is not among the ids live at that
    moment and the index keys stay unique.  With a fair random source, the
    loop returns (given enough rounds) whenever some id of the fixed length
    over the alphabet is not in the index. *)
Theorem generate_id_free_and_terminates cfg :
  (forall fuel id_length rng (d : dict meta) paste_id,
     generate_id fuel id_length rng d = Some paste_id ->
     dict_contains paste_id d = false /\
     is_valid_id id_length paste_id = true) /\
  (forall rng fuel now data w resp w',
     create_paste cfg rng fuel now data w = Return resp w' ->
     dict_contains (PasteResponse.id resp) (pastes w) = false /\
     dict_keys (pastes w') = dict_keys (pastes w) ++ [PasteResponse.id resp] /\
     (dict_wf (pastes w) -> dict_wf (pastes w'))) /\
  (forall id_length rng (d : dict meta),
     fair id_length rng ->
     (exists s, is_valid_id id_length s = true /\ dict_contains s d = false) ->
     exists fuel paste_id,
       forall fuel', (fuel <= fuel')%nat ->
         generate_id fuel' id_length rng d = Some paste_id).
Proof.
  split; [|split].
  - intros fuel id_length rng d paste_id H.
    split; [by apply generate_id_fresh in H|by apply generate_id_valid in H].
  - intros rng fuel now data w resp w' H.
    destruct (create_paste_appends _ _ _ _ _ _ _ _ H) as [Hfresh Happ].
    split; [exact Hfresh|]. split.
    + unfold dict_keys, dict_items in *. by rewrite Happ, map_app.
    + apply create_paste_Return in H as (_ & _ & _ & _ & _ & ->).
      apply dict_wf_set.
  - intros id_length rng d Hfair (s & Hs & Hfree).
    destruct (Hfair s Hs) as [n Hn]. rewrite <- Hn in Hfree.
    destruct (generate_id_by_round n id_length rng d Hfree) as [paste_id Hid].
    exists (S n), paste_id. intros fuel' Hle.
    by apply (generate_id_more_fuel (S n)).
Qed.

Lemma generate_id_free_and_terminates_witness :
  fair 8 (counting_rng 8) /\
  generate_id 2 8 (counting_rng 8) (pastes two_pastes_world)
    = Some (lit "baaaaaaa") /\
  exists fuel paste_id,
    forall fuel', (fuel <= fuel')%nat ->
      generate_id fuel' 8 (counting_rng 8) (pastes two_pastes_world)
      = Some paste_id.
Proof.
  split; [apply counting_rng_fair|]. split; [vm_compute; reflexivity|].
  apply (proj2 (proj2 (generate_id_free_and_terminates default_config))).
  - apply counting_rng_fair.
  - exists (lit "baaaaaaa"). split; vm_compute; reflexivity.
Defined.

(** With a fair random source, a free id, an expiry that can be computed
    and content that can be encoded, a create of valid content returns once
    the fuel covers the round in which the free id comes up. *)
Lemma create_paste_returns cfg rng now data w expires :
  len (PasteCreate.content data) <= MAX_SIZE cfg ->
  forallb isspace (PasteCreate.content data) = false ->
  encodable (PasteCreate.content data) = true ->
  fair 8 rng ->
  (exists s, is_valid_id 8 s = true /\ dict_contains s (pastes w) = false) ->
  compute_expires_at now (PasteCreate.expires_in_hours data) = Some expires ->
  exists fuel resp w',
    (forall fuel', (fuel <= fuel')%nat ->
       create_paste cfg rng fuel' now data w = Return resp w') /\
    PasteResponse.expires_at resp = expires /\
    w' = store_paste (PasteResponse.id resp) (new_meta now expires data)
           (PasteCreate.content data) w.
Proof.
  intros Hsize Hspace Henc Hfair (s & Hs & Hfree) Hexp.
  destruct (Hfair s Hs) as [n Hn]. rewrite <- Hn in Hfree.
  destruct (generate_id_by_round n 8 rng (pastes w) Hfree) as [paste_id Hid].
  exists (S n). eexists _, _. split; [|split].
  - intros fuel' Hle. rewrite create_paste_valid by done.
    rewrite (generate_id_more_fuel (S n) fuel' _ _ _ _ Hid Hle), Hexp, Henc.
    reflexivity.
  - reflexivity.
  - reflexivity.
Qed.

(** On an index that holds every id the loop never returns, so a create of
    valid content never answers. *)
Lemma create_paste_saturated cfg rng fuel now data w :
  len (PasteCreate.content data) <= MAX_SIZE cfg ->
  forallb isspace (PasteCreate.content data) = false ->
  saturated 8 (pastes w) ->
  create_paste cfg rng fuel now data w = Diverge.
Proof.
  intros Hsize Hspace Hsat. rewrite create_paste_valid by done.
  by rewrite generate_id_saturated.
Qed.

Lemma compute_expires_at_defined now hours :
  0 <= now ->
  (forall h, hours = Some h -> 0 < h -> now + h * HOUR <= DATETIME_MAX) ->
  exists expires, compute_expires_at now hours = Some expires.
Proof.
  intros Hnow Hmax. destruct hours as [h|]; [|by eexists].
  destruct (Z.ltb_spec 0 h) as [Hpos|Hneg].
  - rewrite compute_expires_at_in_range by auto. by eexists.
  - unfold compute_expires_at.
    replace (0 <? h) with false by (symmetry; apply Z.ltb_ge; lia).
    rewrite andb_false_r. by eexists.
Qed.

(** C3 as stated fails at [MAX_SIZE = 4].  Five spaces are all
    whitespace, and the answer is not EmptyContent.  Three two-byte
    characters take six bytes, and the answer is not ContentTooLarge.
    ["a b"] with [expires_in_hours] of a thousand million passes both
    checks, but the create does not succeed: the expiry is past
    [datetime.max].  A lone surrogate passes both checks as well, and the
    create does not succeed either: the content write raises. *)
Lemma create_paste_errors_counterexample :
  ~ (create_paste small_config zeros 1 sample_now
       (PasteCreate.validate (plain_body (lit "     "))) initial_world
     = Raise EmptyContent initial_world
     <-> forallb isspace (lit "     ") = true) /\
  ~ (create_paste small_config zeros 1 sample_now
       (PasteCreate.validate (plain_body [0xE9; 0xE9; 0xE9]%N)) initial_world
     = Raise ContentTooLarge initial_world
     <-> MAX_SIZE small_config < utf8_len [0xE9; 0xE9; 0xE9]%N) /\
  (utf8_len (lit "a b") <= MAX_SIZE small_config /\
   forallb isspace (lit "a b") = false /\
   create_paste small_config zeros 1 sample_now
     (PasteCreate.validate (hours_body (lit "a b") (Some 1000000000)))
     initial_world
   = Raise OverflowError initial_world) /\
  (utf8_len surrogate_text <= MAX_SIZE small_config /\
   forallb isspace surrogate_text = false /\
   exists w',
     create_paste small_config zeros 1 sample_now
       (PasteCreate.validate (plain_body surrogate_text)) initial_world
     = Raise UnicodeEncodeError w').
Proof.
  split; [|split; [|split]].
  - intros [_ H]. specialize (H eq_refl). vm_compute in H. discriminate.
  - intros [_ H]. assert (4 < 6) as H6 by lia. specialize (H H6).
    vm_compute in H. discriminate.
  - split; [vm_compute; discriminate|]. split; reflexivity.
  - split; [vm_compute; discriminate|]. split; [reflexivity|].
    eexists. reflexivity.
Qed.

(** C3, amended.  Leaving out only the content that is within [MAX_SIZE]
    in characters but over it in bytes: create answers ContentTooLarge
    exactly when the byte length exceeds [MAX_SIZE], and EmptyContent
    exactly when the content is within the limit and is empty or all
    whitespace.  In the remaining case it succeeds - with a fair random
    source and enough rounds of the id loop - provided some id is free, the
    expiry stays within [datetime.max] and the content can be encoded; the
    record and the content are then stored. *)
Theorem create_paste_validation cfg rng fuel now data w :
  (MAX_SIZE cfg < utf8_len (PasteCreate.content data) ->
   MAX_SIZE cfg < len (PasteCreate.content data)) ->
  (create_paste cfg rng fuel now data w = Raise ContentTooLarge w
   <-> MAX_SIZE cfg < utf8_len (PasteCreate.content data)) /\
  (create_paste cfg rng fuel now data w = Raise EmptyContent w
   <-> utf8_len (PasteCreate.content data) <= MAX_SIZE cfg /\
       forallb isspace (PasteCreate.content data) = true) /\
  (utf8_len (PasteCreate.content data) <= MAX_SIZE cfg ->
   forallb isspace (PasteCreate.content data) = false ->
   fair 8 rng ->
   (exists s, is_valid_id 8 s = true /\ dict_contains s (pastes w) = false) ->
   0 <= now ->
   (forall h, PasteCreate.expires_in_hours data = Some h -> 0 < h ->
      now + h * HOUR <= DATETIME_MAX) ->
   encodable (PasteCreate.content data) = true ->
   exists enough resp w',
     (forall fuel', (enough <= fuel')%nat ->
        create_paste cfg rng fuel' now data w = Return resp w') /\
     dict_get (PasteResponse.id resp) (pastes w')
       = Some (new_meta now (PasteResponse.expires_at resp) data) /\
     paste_files w' !! PasteResponse.id resp = Some (PasteCreate.content data)).
Proof.
  intros Hbytes.
  pose proof (len_le_utf8_len (PasteCreate.content data)) as Hle.
  destruct (Z.ltb_spec (MAX_SIZE cfg) (len (PasteCreate.content data))) as [H|H].
  { rewrite create_paste_too_large by done.
    split; [split; [lia|done]|]. split; [split; [discriminate|lia]|lia]. }
  assert (utf8_len (PasteCreate.content data) <= MAX_SIZE cfg) as Hfits.
  { destruct (Z.le_gt_cases (utf8_len (PasteCreate.content data)) (MAX_SIZE cfg))
      as [?|Hgt]; [done|]. apply Hbytes in Hgt. lia. }
  destruct (forallb isspace (PasteCreate.content data)) eqn:Hs.
  { rewrite create_paste_empty by done.
    split; [split; [discriminate|lia]|]. split; [done|discriminate]. }
  split; [|split].
  - split; [|lia]. rewrite create_paste_valid by done.
    destruct (generate_id _ _ _ _); [|discriminate].
    destruct (compute_expires_at _ _); [|discriminate].
    destruct (encodable _); discriminate.
  - split; [|intros [_ ?]; discriminate]. rewrite create_paste_valid by done.
    destruct (generate_id _ _ _ _); [|discriminate].
    destruct (compute_expires_at _ _); [|discriminate].
    destruct (encodable _); discriminate.
  - intros _ _ Hfair Hfree Hnow Hmax Henc.
    destruct (compute_expires_at_defined now _ Hnow Hmax) as [expires Hexp].
    destruct (create_paste_returns cfg rng now data w expires H Hs Henc Hfair
                Hfree Hexp) as (enough & resp & w' & Hret & He & ->).
    exists enough, resp. eexists. split; [exact Hret|]. rewrite He. simpl. split.
    + apply dict_get_set_eq.
    + apply lookup_insert_eq.
Qed.

Lemma create_paste_validation_witness :
  exists enough resp w',
    (forall fuel', (enough <= fuel')%nat ->
       create_paste small_config (counting_rng 8) fuel' sample_now
         (PasteCreate.validate (plain_body (lit "a b"))) initial_world
       = Return resp w') /\
    paste_files w' !! PasteResponse.id resp = Some (lit "a b").
Proof.
  destruct (create_paste_validation small_config (counting_rng 8) 1 sample_now
              (PasteCreate.validate (plain_body (lit "a b"))) initial_world)
    as (_ & _ & Hok); [vm_compute; discriminate|].
  destruct Hok as (enough & resp & w' & Hret & _ & Hfile).
  - vm_compute. discriminate.
  - reflexivity.
  - apply counting_rng_fair.
  - exists (lit "aaaaaaaa"). split; reflexivity.
  - vm_compute. discriminate.
  - intros h [= <-] _. vm_compute. discriminate.
  - reflexivity.
  - by exists enough, resp, w'.
Defined.

(** ** What every world of the server satisfies *)

Lemma dict_contains_filter_get {V} (p : pystr * V -> bool) (d : dict V) k v :
  dict_wf d -> dict_get k d = Some v ->
  dict_contains k (List.filter p d) = p (k, v).
Proof.
  intros Hwf Hget. destruct (p (k, v)) eqn:Hp.
  - apply dict_contains_In, list_elem_of_fmap. exists (k, v).
    split; [reflexivity|]. apply list_elem_of_In, filter_In.
    split; [|exact Hp]. by apply list_elem_of_In, dict_get_In.
  - apply dict_contains_false.
    intros ([k' v'] & -> & Hin%list_elem_of_In%filter_In)%list_elem_of_fmap.
    destruct Hin as [Hin Hp']. simpl in *.
    apply list_elem_of_In, (dict_In_get _ _ _ Hwf) in Hin.
    assert (v' = v) as -> by congruence. congruence.
Qed.

Lemma dict_get_filter {V} (p : pystr * V -> bool) (d : dict V) k v :
  dict_wf d -> dict_get k d = Some v -> p (k, v) = true ->
  dict_get k (List.filter p d) = Some v.
Proof.
  intros Hwf Hget Hp. apply dict_In_get; [by apply dict_wf_filter|].
  apply list_elem_of_In, filter_In. split; [|exact Hp].
  by apply list_elem_of_In, dict_get_In.
Qed.

Lemma filter_negb_all {A} (p : A -> bool) (l : list A) :
  List.filter p l = [] -> List.filter (fun x => negb (p x)) l = l.
Proof.
  induction l as [|x l IH]; simpl; [reflexivity|].
  destruct (p x); simpl; [discriminate|]. intros H. by rewrite IH.
Qed.

Lemma dict_wf_app_l {V} (d1 d2 : dict V) : dict_wf (d1 ++ d2) -> dict_wf d1.
Proof.
  unfold dict_wf, dict_keys. rewrite fmap_app. by intros [? _]%NoDup_app.
Qed.

Lemma dict_contains_elem {V} k v (d : dict V) :
  (k, v) ∈ d -> dict_contains k d = true.
Proof.
  intros H. apply dict_contains_In, list_elem_of_fmap. by exists (k, v).
Qed.

(** What a restart loads, in terms of the snapshot. *)
Lemma startup_loaded now w :
  dict_wf (snapshot_members w) ->
  pastes (startup now w)
    = List.filter (fun kv => negb (is_expired now (snd kv))) (snapshot_members w) /\
  (forall k,
     paste_files (startup now w) !! k =
     if dict_contains k
          (List.filter (fun kv => is_expired now (snd kv)) (snapshot_members w))
     then None else paste_files w !! k) /\
  snapshot_members (startup now w) = pastes (startup now w).
Proof.
  unfold snapshot_members, startup. intros Hwf.
  destruct (index_file w) as [snapshot|] eqn:Hi; simpl in Hwf |- *.
  - assert (index_file (boot w) = Some snapshot) as Hb by exact Hi.
    destruct (load_index_Some now (boot w) _ Hb) as (Hp & Hf & Hidx & _).
    unfold json_loads in Hp, Hf, Hidx.
    rewrite (dict_of_items_wf_id _ Hwf) in Hp, Hf, Hidx.
    split; [exact Hp|]. split.
    + intros k. rewrite Hf. unfold expired_keys, dict_items.
      change (map fst ?l) with (dict_keys l).
      by rewrite existsb_keys_contains.
    + rewrite Hidx, Hp. destruct (expired_keys now snapshot) eqn:E; simpl.
      * apply expired_keys_nil in E. by rewrite filter_negb_all.
      * reflexivity.
  - rewrite load_index_None by exact Hi. simpl. rewrite Hi. by repeat split.
Qed.

Section Soundness.
Variable cfg : config.
Implicit Types (w : world) (paste_id k : pystr).

Lemma sound_initial : sound initial_world.
Proof.
  split; [apply NoDup_nil_2|]. split; [discriminate|]. split.
  - intros k stored. simpl. by rewrite lookup_empty.
  - exists []. split; [reflexivity|]. by intros k m ?%elem_of_nil.
Qed.

Lemma sound_emit e w : sound w -> sound (emit e w).
Proof. by intros H. Qed.

Lemma sound_burn k w : sound w -> sound (burn k w).
Proof.
  intros (Hwf & Hin & Horph & _). split; [by apply dict_wf_del|].
  split; [|split].
  - intros k'. simpl. rewrite dict_contains_del.
    intros [Hne%negb_true_iff%str_eqb_neq Hc]%andb_true_iff.
    rewrite lookup_delete_ne by done. by apply Hin.
  - intros k' stored. simpl.
    destruct (decide (k = k')) as [->|Hne];
      [rewrite lookup_delete_eq; discriminate|].
    rewrite lookup_delete_ne by done. intros H.
    destruct (Horph _ _ H) as [Hc| ->]; [left|by right].
    rewrite dict_contains_del, Hc. apply str_eqb_neq in Hne. by rewrite Hne.
  - exists []. split; [unfold snapshot_members; simpl; by rewrite app_nil_r|].
    by intros ? ? ?%elem_of_nil.
Qed.

(** The record put into the index and a file written under its id. *)
Lemma sound_written paste_id m text w :
  sound w ->
  let w' := write_file paste_id text (insert_record paste_id m w) in
  dict_wf (pastes w') /\
  (forall k, dict_contains k (pastes w') = true -> is_Some (paste_files w' !! k)) /\
  (forall k stored, paste_files w' !! k = Some stored ->
     dict_contains k (pastes w') = true \/ stored = []).
Proof.
  intros (Hwf & Hin & Horph & _). simpl. split; [by apply dict_wf_set|]. split.
  - intros k. rewrite dict_contains_set.
    destruct (str_eqb k paste_id) eqn:E; simpl.
    + apply str_eqb_eq in E. subst. rewrite lookup_insert_eq. by eexists.
    + apply str_eqb_neq in E. rewrite lookup_insert_ne by done. apply Hin.
  - intros k stored. rewrite dict_contains_set.
    destruct (str_eqb k paste_id) eqn:E; simpl; [by left|].
    apply str_eqb_neq in E. rewrite lookup_insert_ne by done. apply Horph.
Qed.

Lemma sound_store paste_id m content w :
  sound w -> sound (store_paste paste_id m content w).
Proof.
  intros H. destruct (sound_written paste_id m content w H) as (H1 & H2 & H3).
  split; [exact H1|]. split; [exact H2|]. split; [exact H3|].
  exists []. split; [unfold snapshot_members; simpl; by rewrite app_nil_r|].
  by intros ? ? ?%elem_of_nil.
Qed.

Lemma sound_failed_store paste_id m w :
  sound w -> dict_contains paste_id (pastes w) = false ->
  sound (failed_store paste_id m w).
Proof.
  intros H Hfresh. destruct (sound_written paste_id m [] w H) as (H1 & H2 & H3).
  split; [exact H1|]. split; [exact H2|]. split; [exact H3|].
  destruct H as (_ & _ & _ & rest & Hrest & Hempty).
  exists (rest ++ [(paste_id, m)]). split.
  - simpl. rewrite (dict_set_fresh _ _ _ Hfresh).
    unfold snapshot_members in *. simpl. by rewrite Hrest, app_assoc.
  - intros k m' [Hin|Hin%list_elem_of_singleton]%elem_of_app; simpl.
    + rewrite lookup_insert_ne; [by apply (Hempty k m')|].
      intros <-. apply dict_contains_false in Hfresh. apply Hfresh.
      rewrite Hrest. unfold dict_keys. rewrite fmap_app. apply elem_of_app.
      right. apply list_elem_of_fmap. by exists (paste_id, m').
    + injection Hin as -> ->. apply lookup_insert_eq.
Qed.

Lemma sound_startup now w : sound w -> sound (startup now w).
Proof.
  intros (Hwf & Hin & Horph & rest & Hrest & Hempty).
  assert (dict_wf (snapshot_members w)) as Hwfs
    by (apply (dict_wf_app_l _ rest); by rewrite <- Hrest).
  destruct (startup_loaded now w Hwfs) as (Hp & Hf & Hm).
  assert (forall k m, (k, m) ∈ pastes (startup now w) ->
            (k, m) ∈ snapshot_members w /\ is_expired now m = false /\
            paste_files (startup now w) !! k = paste_files w !! k) as Hkept.
  { intros k m Hk. rewrite Hp in Hk.
    apply list_elem_of_In, filter_In in Hk as [Hk Hexp]. simpl in Hexp.
    apply negb_true_iff in Hexp. apply list_elem_of_In in Hk.
    split; [exact Hk|]. split; [exact Hexp|]. rewrite Hf.
    rewrite (dict_contains_filter_get (fun kv => is_expired now (snd kv))
               _ k m Hwfs (dict_In_get _ _ _ Hwfs Hk)).
    simpl. by rewrite Hexp. }
  split; [rewrite Hp; by apply dict_wf_filter|]. split; [|split].
  - intros k [m Hget%dict_get_In]%dict_contains_get.
    destruct (Hkept k m Hget) as (Hk & _ & ->). apply Hin.
    rewrite Hrest. apply (dict_contains_elem k m), elem_of_app. by left.
  - intros k stored. rewrite Hf.
    destruct (dict_contains k (List.filter _ (snapshot_members w))) eqn:Hexp;
      [discriminate|].
    intros Hfile. destruct (Horph k stored Hfile) as [Hc| ->]; [|by right].
    apply dict_contains_get in Hc as [m Hget%dict_get_In].
    rewrite Hrest in Hget. apply elem_of_app in Hget as [Hsnap|Hr].
    + left. rewrite Hp.
      rewrite (dict_contains_filter_get
                 (fun kv => negb (is_expired now (snd kv)))
                 _ k m Hwfs (dict_In_get _ _ _ Hwfs Hsnap)).
      rewrite (dict_contains_filter_get (fun kv => is_expired now (snd kv))
                 _ k m Hwfs (dict_In_get _ _ _ Hwfs Hsnap)) in Hexp.
      simpl in *. by rewrite Hexp.
    + right. pose proof (Hempty k m Hr) as Hnil.
      assert (Some stored = Some []) as [= ->]; [|reflexivity].
      etransitivity; [symmetry; exact Hfile|exact Hnil].
  - exists []. split; [by rewrite Hm, app_nil_r|]. by intros ? ? ?%elem_of_nil.
Qed.

Lemma handle_sound r w w' :
  sound w -> handle cfg r w = Some w' -> sound w'.
Proof.
  intros Hs Hh. destruct r as [rng fuel now data|limit|k|k|k|now]; simpl in Hh.
  - destruct (create_paste cfg rng fuel now data w) as [resp w1|e w1|] eqn:E;
      simpl in Hh; [| |discriminate]; injection Hh as <-.
    + apply create_paste_Return in E as (_ & _ & _ & _ & _ & ->).
      by apply sound_store.
    + apply create_paste_Raise in E
        as [[-> _]|(_ & _ & _ & _ & k & expires & Hid & _ & ->)]; [done|].
      apply sound_failed_store; [done|]. by apply generate_id_fresh in Hid.
  - by injection Hh as <-.
  - apply get_paste_raw_world in Hh as [->|[->|[_ ->]]]; [done|done|].
    by apply sound_burn, sound_emit.
  - apply get_paste_html_world in Hh as [->|[->|[_ ->]]]; [done|done|].
    by apply sound_burn, sound_emit.
  - apply delete_paste_world in Hh as [->|[_ ->]]; [done|by apply sound_burn].
  - injection Hh as <-. by apply sound_startup.
Qed.

Lemma reachable_sound w : reachable cfg w -> sound w.
Proof.
  induction 1 as [|r w w' _ IH Hstep]; [apply sound_initial|].
  by apply (handle_sound r w w').
Qed.
End Soundness.




(* ===================================================================== *)
(** * Further properties of the handlers *)
(* ===================================================================== *)

(** ** Readers *)

(** X1. A raw or rendered read returns exactly when the id is in the index
    and its content file exists; in every other case it raises 404 and
    leaves the world as it was.  No other exception comes out of a reader,
    and the two readers agree on which case applies. *)
Theorem readers_return_or_not_found cfg paste_id w :
  ((exists text w', get_paste_raw paste_id w = Return text w') <->
   dict_contains paste_id (pastes w) = true /\
   is_Some (paste_files w !! paste_id)) /\
  ((exists page w', get_paste_html cfg paste_id w = Return page w') <->
   dict_contains paste_id (pastes w) = true /\
   is_Some (paste_files w !! paste_id)) /\
  (~ (dict_contains paste_id (pastes w) = true /\
      is_Some (paste_files w !! paste_id)) ->
   get_paste_raw paste_id w = Raise NotFound w /\
   get_paste_html cfg paste_id w = Raise NotFound w).
Proof.
  destruct (dict_contains paste_id (pastes w)) eqn:Hc.
  - apply dict_contains_get in Hc as Hm. destruct Hm as [m Hm].
    destruct (paste_files w !! paste_id) as [stored|] eqn:Hf.
    + destruct (get_paste_html_live cfg paste_id w m stored Hm Hf)
        as (page & _ & Hhtml).
      rewrite (get_paste_raw_live paste_id w m stored Hm Hf), Hhtml.
      split; [|split].
      * split; [by intros _|by eexists _, _].
      * split; [by intros _|by eexists _, _].
      * intros []. by split.
    + unfold get_paste_raw, get_paste_html, load_content. rewrite Hc, Hf. simpl.
      split; [|split].
      * split; [by intros (? & ? & ?)|by intros [_ [? ?]]].
      * split; [by intros (? & ? & ?)|by intros [_ [? ?]]].
      * done.
  - rewrite (get_paste_raw_absent _ _ Hc), (get_paste_html_absent cfg _ _ Hc).
    split; [|split].
    + split; [by intros (? & ? & ?)|by intros [? _]].
    + split; [by intros (? & ? & ?)|by intros [? _]].
    + done.
Qed.

(** X2. Reading a paste whose [burn_after_read] is off changes nothing
    but the log: index, files and snapshot stay, so the same read can be
    repeated and returns the same text. *)
Theorem read_without_burn_repeats paste_id w m stored :
  dict_get paste_id (pastes w) = Some m ->
  burn_after_read m = false ->
  paste_files w !! paste_id = Some stored ->
  exists w' w'',
    get_paste_raw paste_id w = Return (universal_newlines stored) w' /\
    pastes w' = pastes w /\
    paste_files w' = paste_files w /\
    index_file w' = index_file w /\
    log w' = log w ++ [EvReadContent paste_id] /\
    get_paste_raw paste_id w' = Return (universal_newlines stored) w''.
Proof.
  intros Hm Hburn Hf.
  pose proof (get_paste_raw_live paste_id w m stored Hm Hf) as H1.
  pose proof (get_paste_raw_live paste_id (emit (EvReadContent paste_id) w)
                m stored Hm Hf) as H2.
  rewrite Hburn in H1, H2.
  eexists _, _. split; [exact H1|]. repeat (split; [reflexivity|]). exact H2.
Qed.

Lemma read_without_burn_repeats_witness :
  exists w' w'',
    get_paste_raw (lit "aaaaaaaa") two_pastes_world = Return (lit "one") w' /\
    get_paste_raw (lit "aaaaaaaa") w' = Return (lit "one") w''.
Proof.
  destruct (read_without_burn_repeats (lit "aaaaaaaa") two_pastes_world
              (new_meta sample_now (Some (sample_now + DEFAULT_EXPIRY_HOURS * HOUR))
                 (PasteCreate.validate (plain_body (lit "one"))))
              (lit "one"))
    as (w' & w'' & H1 & _ & _ & _ & _ & H2).
  - vm_compute. reflexivity.
  - reflexivity.
  - vm_compute. reflexivity.
  - by exists w', w''.
Defined.

(** X3. When the index has the id but the content file is missing, both
    readers raise 404 and the record stays in the index; a delete of the id
    still succeeds and removes the record. *)
Theorem read_with_missing_file cfg paste_id w :
  dict_contains paste_id (pastes w) = true ->
  paste_files w !! paste_id = None ->
  get_paste_raw paste_id w = Raise NotFound w /\
  get_paste_html cfg paste_id w = Raise NotFound w /\
  exists w',
    delete_paste paste_id w = Return paste_id w' /\
    dict_contains paste_id (pastes w') = false.
Proof.
  intros Hc Hf. unfold get_paste_raw, get_paste_html, delete_paste, load_content.
  rewrite Hc, Hf. simpl. split; [reflexivity|]. split; [reflexivity|].
  eexists. split; [reflexivity|]. apply dict_contains_del_eq.
Qed.

Lemma read_with_missing_file_witness :
  get_paste_raw (lit "aaaaaaaa") dangling_world = Raise NotFound dangling_world.
Proof.
  apply (read_with_missing_file default_config (lit "aaaaaaaa") dangling_world).
  - vm_compute. reflexivity.
  - vm_compute. reflexivity.
Defined.

(** X4. On a live paste the two readers leave the same world behind, and
    the rendered page highlights exactly the text the raw read returns;
    without Pygments that text sits unchanged between the [<pre><code>]
    tags. *)
Theorem readers_agree cfg paste_id w m stored :
  dict_get paste_id (pastes w) = Some m ->
  paste_files w !! paste_id = Some stored ->
  exists text page w',
    get_paste_raw paste_id w = Return text w' /\
    get_paste_html cfg paste_id w = Return page w' /\
    Page.highlighted page = highlight_code cfg text (language m) /\
    Page.raw_link page = lit "/" ++ paste_id ++ lit "/raw" /\
    (pygments cfg = None ->
     Page.highlighted page = lit "<pre><code>" ++ text ++ lit "</code></pre>").
Proof.
  intros Hm Hf.
  destruct (get_paste_html_live cfg paste_id w m stored Hm Hf)
    as (page & Hpage & Hhtml).
  exists (universal_newlines stored), page. eexists.
  split; [apply (get_paste_raw_live paste_id w m stored Hm Hf)|].
  split; [exact Hhtml|]. split; [exact Hpage|]. split.
  - unfold get_paste_html, load_content in Hhtml.
    rewrite (dict_get_contains _ _ _ Hm), Hf in Hhtml. simpl in Hhtml.
    rewrite Hm in Hhtml. destruct (burn_after_read m); by injection Hhtml as <-.
  - intros Hpy. rewrite Hpage. unfold highlight_code. by rewrite Hpy.
Qed.

Lemma readers_agree_witness :
  exists page w',
    get_paste_raw (lit "aaaaaaaa") two_pastes_world = Return (lit "one") w' /\
    get_paste_html default_config (lit "aaaaaaaa") two_pastes_world
      = Return page w' /\
    Page.highlighted page = lit "<pre><code>one</code></pre>".
Proof.
  destruct (readers_agree default_config (lit "aaaaaaaa") two_pastes_world
              (new_meta sample_now (Some (sample_now + DEFAULT_EXPIRY_HOURS * HOUR))
                 (PasteCreate.validate (plain_body (lit "one"))))
              (lit "one"))
    as (text & page & w' & Hraw & Hhtml & _ & _ & Hpre).
  - vm_compute. reflexivity.
  - vm_compute. reflexivity.
  - assert (text = lit "one") as ->.
    { assert (get_paste_raw (lit "aaaaaaaa") two_pastes_world
              = Return (lit "one")
                  (emit (EvReadContent (lit "aaaaaaaa")) two_pastes_world)) as E
        by (vm_compute; reflexivity).
      rewrite E in Hraw. by injection Hraw as <- _. }
    exists page, w'. split; [exact Hraw|]. split; [exact Hhtml|].
    by apply Hpre.
Defined.

(** ** Delete *)

(** X5. A delete of an id that is not in the index raises 404 and changes
    nothing.  A delete of an id that is there returns the id, removes the
    record and the content file and rewrites the snapshot; afterwards reads
    and deletes of the id are 404 until a create hands the id out again. *)
Theorem delete_paste_removes cfg paste_id w :
  (dict_contains paste_id (pastes w) = false ->
   delete_paste paste_id w = Raise NotFound w) /\
  (dict_contains paste_id (pastes w) = true ->
   exists w',
     delete_paste paste_id w = Return paste_id w' /\
     dict_contains paste_id (pastes w') = false /\
     paste_files w' !! paste_id = None /\
     index_file w' = Some (json_dumps (pastes w')) /\
     log w' = log w ++ [EvUnlink paste_id; EvWriteIndex] /\
     forall rs w'',
       serves_without cfg paste_id w' rs w'' ->
       get_paste_raw paste_id w'' = Raise NotFound w'' /\
       get_paste_html cfg paste_id w'' = Raise NotFound w'' /\
       delete_paste paste_id w'' = Raise NotFound w'').
Proof.
  split; [apply delete_paste_absent|].
  intros Hc. exists (burn paste_id w). unfold delete_paste. rewrite Hc. simpl.
  split; [reflexivity|]. split; [apply dict_contains_del_eq|].
  split; [apply lookup_delete_eq|]. split; [reflexivity|].
  split; [by rewrite <- app_assoc|].
  intros rs w'' Hserve.
  pose proof (forgotten_serves cfg paste_id rs _ _ Hserve
                (burn_forgets paste_id w)) as [Hgone _].
  split; [by apply get_paste_raw_absent|].
  split; [by apply get_paste_html_absent|by apply delete_paste_absent].
Qed.

Lemma delete_paste_removes_witness :
  exists w',
    delete_paste (lit "aaaaaaaa") two_pastes_world = Return (lit "aaaaaaaa") w' /\
    dict_keys (pastes w') = [lit "bbbbbbbb"] /\
    delete_paste (lit "aaaaaaaa") w' = Raise NotFound w'.
Proof.
  destruct (proj2 (delete_paste_removes default_config (lit "aaaaaaaa")
                     two_pastes_world))
    as (w' & Hdel & _ & _ & _ & _ & Hafter); [vm_compute; reflexivity|].
  exists w'. split; [exact Hdel|]. split.
  - assert (delete_paste (lit "aaaaaaaa") two_pastes_world
            = Return (lit "aaaaaaaa") (burn (lit "aaaaaaaa") two_pastes_world))
      as E by (vm_compute; reflexivity).
    rewrite E in Hdel. injection Hdel as <-. vm_compute. reflexivity.
  - apply (Hafter [] w'). constructor.
Defined.

(** ** Other pastes are left alone *)

(** X6. A create, a read (burning or not) and a delete touch only their
    own id: for every other id the record in the index and the content file
    are what they were. *)
Theorem other_pastes_untouched cfg k w w' :
  (forall rng fuel now data resp,
     create_paste cfg rng fuel now data w = Return resp w' ->
     k <> PasteResponse.id resp ->
     dict_get k (pastes w') = dict_get k (pastes w) /\
     paste_files w' !! k = paste_files w !! k) /\
  (forall paste_id,
     world_of (get_paste_raw paste_id w) = Some w' \/
     world_of (get_paste_html cfg paste_id w) = Some w' \/
     world_of (delete_paste paste_id w) = Some w' ->
     k <> paste_id ->
     dict_get k (pastes w') = dict_get k (pastes w) /\
     paste_files w' !! k = paste_files w !! k).
Proof.
  split.
  - intros rng fuel now data resp Hcreate Hne.
    apply create_paste_Return in Hcreate as (_ & _ & _ & _ & _ & Hw').
    subst w'. simpl. split; [by apply dict_get_set_ne|].
    by apply lookup_insert_ne.
  - intros paste_id Hw Hne.
    assert (w' = w \/ w' = emit (EvReadContent paste_id) w \/
            w' = burn paste_id (emit (EvReadContent paste_id) w) \/
            w' = burn paste_id w) as Hshape.
    { destruct Hw as [H|[H|H]].
      - apply get_paste_raw_world in H as [->|[->|[_ ->]]]; auto.
      - apply get_paste_html_world in H as [->|[->|[_ ->]]]; auto.
      - apply delete_paste_world in H as [->|[_ ->]]; auto. }
    destruct Hshape as [-> | [-> | [-> | ->]]]; [done|done| |]; simpl;
      (split; [by apply dict_get_del_ne|by apply lookup_delete_ne]).
Qed.

Lemma other_pastes_untouched_witness :
  exists w',
    delete_paste (lit "aaaaaaaa") two_pastes_world = Return (lit "aaaaaaaa") w' /\
    paste_files w' !! lit "bbbbbbbb" = Some (lit "two").
Proof.
  exists (burn (lit "aaaaaaaa") two_pastes_world).
  split; [vm_compute; reflexivity|].
  destruct (proj2 (other_pastes_untouched default_config (lit "bbbbbbbb")
                     two_pastes_world (burn (lit "aaaaaaaa") two_pastes_world))
              (lit "aaaaaaaa")) as [_ Hf].
  - right. right. vm_compute. reflexivity.
  - discriminate.
  - rewrite Hf. vm_compute. reflexivity.
Defined.

(** ** Create: failures and overflow *)

(** X7. A create that raises 413, 400 or [OverflowError] has changed
    nothing (index, files, snapshot and log are as before).  The only other
    exception is the [UnicodeEncodeError] of the content write, for content
    that cannot be encoded: it leaves the new record last in the index, its
    content file empty, every other file and the snapshot as they were. *)
Theorem create_paste_failure_effects cfg rng fuel now data w e w' :
  create_paste cfg rng fuel now data w = Raise e w' ->
  ((e = ContentTooLarge \/ e = EmptyContent \/ e = OverflowError) /\ w' = w) \/
  (e = UnicodeEncodeError /\
   encodable (PasteCreate.content data) = false /\
   exists paste_id,
     generate_id fuel 8 rng (pastes w) = Some paste_id /\
     dict_keys (pastes w') = dict_keys (pastes w) ++ [paste_id] /\
     paste_files w' !! paste_id = Some [] /\
     (forall k, k <> paste_id -> paste_files w' !! k = paste_files w !! k) /\
     index_file w' = index_file w /\
     log w' = log w ++ [EvWriteContent paste_id]).
Proof.
  intros [[-> He]|(-> & _ & _ & Hno & k & expires & Hid & _ & ->)]%create_paste_Raise;
    [by left|].
  right. split; [reflexivity|]. split; [exact Hno|]. exists k.
  split; [exact Hid|]. simpl.
  rewrite dict_keys_set, (generate_id_fresh _ _ _ _ _ Hid).
  split; [reflexivity|]. split; [apply lookup_insert_eq|].
  split; [|by split]. intros k' Hne. by apply lookup_insert_ne.
Qed.

Lemma create_paste_failure_effects_witness :
  exists w',
    create_paste default_config zeros 1 sample_now
      (PasteCreate.validate (plain_body surrogate_text)) initial_world
    = Raise UnicodeEncodeError w' /\
    paste_files w' !! lit "aaaaaaaa" = Some [] /\
    index_file w' = None.
Proof.
  eexists. split; [reflexivity|].
  destruct (create_paste_failure_effects default_config zeros 1 sample_now
              (PasteCreate.validate (plain_body surrogate_text)) initial_world
              _ _ eq_refl)
    as [[[He|[He|He]] _]|(_ & _ & k & Hid & _ & Hfile & _ & Hidx & _)];
    [discriminate..|].
  injection Hid as <-. by split.
Defined.

Lemma compute_expires_at_None now hours :
  0 <= now <= DATETIME_MAX ->
  (compute_expires_at now hours = None <->
   exists h, hours = Some h /\ 0 < h /\ DATETIME_MAX < now + h * HOUR).
Proof.
  intros Hnow. split.
  - destruct hours as [h|]; [|discriminate].
    destruct (Z.ltb_spec 0 h) as [Hpos|Hneg].
    + destruct (Z.le_gt_cases (now + h * HOUR) DATETIME_MAX) as [Hle|Hgt].
      * rewrite compute_expires_at_in_range by lia. discriminate.
      * intros _. exists h. repeat split; [done|lia].
    + unfold compute_expires_at.
      replace (0 <? h) with false by (symmetry; apply Z.ltb_ge; lia).
      rewrite andb_false_r. discriminate.
  - intros (h & -> & Hpos & Hgt).
    unfold compute_expires_at, timedelta_hours, datetime_add.
    replace (h =? 0) with false by (symmetry; apply Z.eqb_neq; lia).
    replace (0 <? h) with true by (symmetry; apply Z.ltb_lt; lia).
    cbn [negb andb]. cbv zeta.
    destruct (TIMEDELTA_MAX_DAYS <? Z.abs (h / 24)); [reflexivity|].
    replace (DATETIME_MAX <? now + h * HOUR) with true
      by (symmetry; apply Z.ltb_lt; lia).
    by rewrite orb_true_r.
Qed.

(** X8. With the clock inside the datetime range, a create dies of the
    uncaught [OverflowError] exactly when the content passes both checks,
    the id loop returns, and [expires_in_hours] is positive and takes the
    expiry past [datetime.max]. *)
Theorem create_paste_overflow cfg rng fuel now data w :
  0 <= now <= DATETIME_MAX ->
  (create_paste cfg rng fuel now data w = Raise OverflowError w <->
   len (PasteCreate.content data) <= MAX_SIZE cfg /\
   forallb isspace (PasteCreate.content data) = false /\
   is_Some (generate_id fuel 8 rng (pastes w)) /\
   exists h, PasteCreate.expires_in_hours data = Some h /\ 0 < h /\
             DATETIME_MAX < now + h * HOUR).
Proof.
  intros Hnow. rewrite <- (compute_expires_at_None now _ Hnow).
  destruct (Z.ltb_spec (MAX_SIZE cfg) (len (PasteCreate.content data))) as [H|H].
  { rewrite create_paste_too_large by done.
    split; [discriminate|]. intros [? _]. lia. }
  destruct (forallb isspace (PasteCreate.content data)) eqn:Hs.
  { rewrite create_paste_empty by done.
    split; [discriminate|]. by intros (_ & ? & _). }
  rewrite create_paste_valid by done.
  destruct (generate_id fuel 8 rng (pastes w)) as [paste_id|].
  - destruct (compute_expires_at now _) as [expires|].
    + split; [|by intros (_ & _ & _ & ?)].
      destruct (encodable (PasteCreate.content data)); discriminate.
    + split; [|done]. intros _. repeat split; [done|by eexists].
  - split; [discriminate|]. by intros (_ & _ & [? ?] & _).
Qed.

Lemma create_paste_overflow_witness :
  create_paste default_config zeros 1 sample_now
    (PasteCreate.validate (hours_body (lit "a b") (Some 1000000000)))
    initial_world
  = Raise OverflowError initial_world.
Proof.
  apply (create_paste_overflow default_config zeros 1 sample_now
           (PasteCreate.validate (hours_body (lit "a b") (Some 1000000000)))
           initial_world).
  - vm_compute. split; discriminate.
  - split; [vm_compute; discriminate|]. split; [reflexivity|].
    split; [by eexists|]. exists 1000000000.
    split; [reflexivity|]. split; [lia|]. vm_compute. reflexivity.
Defined.

(** ** Restart *)

(** What a restart does to a record of a world whose snapshot has just been
    written. *)
Lemma startup_record now w k m :
  dict_wf (pastes w) ->
  index_file w = Some (json_dumps (pastes w)) ->
  dict_get k (pastes w) = Some m ->
  if is_expired now m
  then dict_contains k (pastes (startup now w)) = false /\
       paste_files (startup now w) !! k = None
  else dict_get k (pastes (startup now w)) = Some m /\
       paste_files (startup now w) !! k = paste_files w !! k.
Proof.
  intros Hwf Hi Hget.
  assert (snapshot_members w = pastes w) as Hm
    by (unfold snapshot_members; by rewrite Hi).
  assert (dict_wf (snapshot_members w)) as Hwfs by (by rewrite Hm).
  destruct (startup_loaded now w Hwfs) as (Hp & Hf & _).
  rewrite Hp, Hf, Hm.
  rewrite (dict_contains_filter_get
             (fun kv => is_expired now (snd kv)) _ k m Hwf Hget).
  simpl. destruct (is_expired now m) eqn:E.
  - split; [|reflexivity].
    rewrite (dict_contains_filter_get
               (fun kv => negb (is_expired now (snd kv))) _ k m Hwf Hget).
    simpl. by rewrite E.
  - split; [|reflexivity]. apply dict_get_filter; [exact Hwf|exact Hget|].
    simpl. by rewrite E.
Qed.

(** X9. A restart brings back, in the same order, exactly the records of
    the snapshot file that have not expired, each with its content file as
    it was; the expired ones lose record and file, and a record without
    [expires_at] survives every restart.  When the snapshot is the index,
    as after every create, delete or burn that completed, these are the
    records of the index. *)
Theorem restart_keeps_unexpired cfg now w :
  reachable cfg w ->
  pastes (startup now w)
    = List.filter (fun kv => negb (is_expired now (snd kv)))
        (snapshot_members w) /\
  (forall k m,
     (k, m) ∈ snapshot_members w -> is_expired now m = false ->
     dict_get k (pastes (startup now w)) = Some m /\
     paste_files (startup now w) !! k = paste_files w !! k) /\
  (forall k m,
     (k, m) ∈ snapshot_members w -> is_expired now m = true ->
     dict_contains k (pastes (startup now w)) = false /\
     paste_files (startup now w) !! k = None) /\
  (forall k m,
     (k, m) ∈ snapshot_members w -> expires_at m = None ->
     dict_get k (pastes (startup now w)) = Some m) /\
  (index_file w = Some (json_dumps (pastes w)) ->
   pastes (startup now w)
     = List.filter (fun kv => negb (is_expired now (snd kv))) (pastes w)).
Proof.
  intros (Hwf & _ & _ & rest & Hrest & _)%reachable_sound.
  assert (dict_wf (snapshot_members w)) as Hwfs
    by (apply (dict_wf_app_l _ rest); by rewrite <- Hrest).
  destruct (startup_loaded now w Hwfs) as (Hp & Hf & _).
  assert (forall k m, (k, m) ∈ snapshot_members w ->
            if is_expired now m
            then dict_contains k (pastes (startup now w)) = false /\
                 paste_files (startup now w) !! k = None
            else dict_get k (pastes (startup now w)) = Some m /\
                 paste_files (startup now w) !! k = paste_files w !! k) as Hrec.
  { intros k m Hin. pose proof (dict_In_get _ _ _ Hwfs Hin) as Hget.
    rewrite Hp, Hf.
    rewrite (dict_contains_filter_get
               (fun kv => is_expired now (snd kv)) _ k m Hwfs Hget).
    simpl. destruct (is_expired now m) eqn:E.
    - split; [|reflexivity].
      rewrite (dict_contains_filter_get
                 (fun kv => negb (is_expired now (snd kv))) _ k m Hwfs Hget).
      simpl. by rewrite E.
    - split; [|reflexivity]. apply dict_get_filter; [exact Hwfs|exact Hget|].
      simpl. by rewrite E. }
  split; [exact Hp|]. split; [|split; [|split]].
  - intros k m Hin Hexp. pose proof (Hrec k m Hin) as H. by rewrite Hexp in H.
  - intros k m Hin Hexp. pose proof (Hrec k m Hin) as H. by rewrite Hexp in H.
  - intros k m Hin Hnone. pose proof (Hrec k m Hin) as H.
    unfold is_expired in H. rewrite Hnone in H. apply H.
  - intros Hi. rewrite Hp. unfold snapshot_members. by rewrite Hi.
Qed.

Lemma restart_keeps_unexpired_witness :
  dict_keys (pastes (startup (sample_now + 2 * HOUR) stale_world))
    = [lit "bbbbbbbb"] /\
  paste_files (startup (sample_now + 2 * HOUR) stale_world) !! lit "bbbbbbbb"
    = Some (lit "new").
Proof.
  assert (reachable default_config stale_world) as Hreach.
  { apply (serve_reachable default_config
             [Create zeros 1 sample_now
                (PasteCreate.validate (hours_body (lit "old") (Some 1)));
              Create ones 1 sample_now
                (PasteCreate.validate (plain_body (lit "new")))]
             initial_world); [constructor|reflexivity]. }
  destruct (restart_keeps_unexpired default_config (sample_now + 2 * HOUR)
              stale_world Hreach) as (Hp & Hkeep & _).
  split; [rewrite Hp; vm_compute; reflexivity|].
  destruct (Hkeep (lit "bbbbbbbb")
              (new_meta sample_now (Some (sample_now + DEFAULT_EXPIRY_HOURS * HOUR))
                 (PasteCreate.validate (plain_body (lit "new")))))
    as [_ Hf].
  - vm_compute. right. left.
  - vm_compute. reflexivity.
  - rewrite Hf. vm_compute. reflexivity.
Defined.

(** X10. Expiry is enforced by the restart sweep only.  A paste created
    with a positive [expires_in_hours] is served by the readers, which take
    no clock; after a restart later than its expiry, reads and deletes of
    it are 404 and its file is gone; after a restart no later than the
    expiry it is still served. *)
Theorem expiry_takes_effect_at_restart cfg rng fuel now data w resp w1 h :
  reachable cfg w ->
  create_paste cfg rng fuel now data w = Return resp w1 ->
  PasteCreate.expires_in_hours data = Some h ->
  0 < h ->
  (exists w2,
     get_paste_raw (PasteResponse.id resp) w1
     = Return (universal_newlines (PasteCreate.content data)) w2) /\
  (forall now', now + h * HOUR < now' ->
     get_paste_raw (PasteResponse.id resp) (startup now' w1)
       = Raise NotFound (startup now' w1) /\
     delete_paste (PasteResponse.id resp) (startup now' w1)
       = Raise NotFound (startup now' w1) /\
     paste_files (startup now' w1) !! PasteResponse.id resp = None) /\
  (forall now', now' <= now + h * HOUR ->
     exists w2,
       get_paste_raw (PasteResponse.id resp) (startup now' w1)
       = Return (universal_newlines (PasteCreate.content data)) w2).
Proof.
  intros Hreach Hcreate Hh Hpos.
  assert (reachable cfg w1) as Hreach1.
  { apply (reachable_step cfg (Create rng fuel now data) w w1 Hreach).
    simpl. by rewrite Hcreate. }
  apply reachable_sound in Hreach1 as [Hc _].
  assert (index_file w1 = Some (json_dumps (pastes w1))) as Hs.
  { apply create_paste_Return in Hcreate as (_ & _ & _ & _ & _ & Hw1).
    by subst w1. }
  pose proof (create_then_read_raw _ _ _ _ _ _ _ _ Hcreate) as Hread.
  pose proof Hcreate as Hret.
  apply create_paste_Return in Hret as (_ & _ & _ & Hexp & _ & Hw1).
  apply compute_expires_at_Some in Hexp. rewrite Hh in Hexp.
  replace (0 <? h) with true in Hexp by (symmetry; apply Z.ltb_lt; lia).
  set (m := new_meta now (PasteResponse.expires_at resp) data) in *.
  assert (dict_get (PasteResponse.id resp) (pastes w1) = Some m) as Hget
    by (subst w1; apply dict_get_set_eq).
  assert (paste_files w1 !! PasteResponse.id resp
          = Some (PasteCreate.content data)) as Hfile
    by (subst w1; apply lookup_insert_eq).
  split; [exact Hread|]. split.
  - intros now' Hlate.
    pose proof (startup_record now' w1 _ m Hc Hs Hget) as H.
    unfold is_expired in H. subst m. cbn [expires_at new_meta] in H.
    rewrite Hexp in H.
    replace (now + h * HOUR <? now') with true in H
      by (symmetry; apply Z.ltb_lt; lia).
    destruct H as [Hgone Hnofile].
    split; [by apply get_paste_raw_absent|].
    split; [by apply delete_paste_absent|exact Hnofile].
  - intros now' Hearly.
    pose proof (startup_record now' w1 _ m Hc Hs Hget) as H.
    unfold is_expired in H. subst m. cbn [expires_at new_meta] in H.
    rewrite Hexp in H.
    replace (now + h * HOUR <? now') with false in H
      by (symmetry; apply Z.ltb_ge; lia).
    destruct H as [Hget' Hfile']. rewrite Hfile in Hfile'.
    rewrite (get_paste_raw_live _ _ _ _ Hget' Hfile'). by eexists.
Qed.

Lemma expiry_takes_effect_at_restart_witness :
  exists resp w1,
    create_paste default_config zeros 1 sample_now
      (PasteCreate.validate (hours_body (lit "old") (Some 1))) initial_world
    = Return resp w1 /\
    get_paste_raw (PasteResponse.id resp) (startup (sample_now + 2 * HOUR) w1)
    = Raise NotFound (startup (sample_now + 2 * HOUR) w1).
Proof.
  eexists _, _. split; [reflexivity|].
  destruct (expiry_takes_effect_at_restart default_config zeros 1 sample_now
              (PasteCreate.validate (hours_body (lit "old") (Some 1)))
              initial_world _ _ 1
              (reachable_initial default_config) eq_refl eq_refl)
    as (_ & Hlate & _); [lia|].
  apply (Hlate (sample_now + 2 * HOUR)). unfold HOUR. lia.
Defined.

(** ** Listing *)

(** X11. With a negative limit the listing drops that many records from
    the end: it shows the first [total + limit] records (none when that is
    not positive), while [total] still counts every record. *)
Theorem list_pastes_negative_limit cfg limit w :
  limit < 0 ->
  exists l,
    list_pastes cfg limit w = Return l w /\
    Z.of_nat (length (Listing.pastes l))
      = Z.max (Z.of_nat (length (pastes w)) + limit) 0 /\
    map Summary.id (Listing.pastes l)
      = firstn (Z.to_nat (Z.of_nat (length (pastes w)) + limit))
          (dict_keys (pastes w)) /\
    Listing.total l = Z.of_nat (length (pastes w)).
Proof.
  intros Hneg. eexists. split; [reflexivity|]. cbn [Listing.pastes Listing.total].
  unfold slice_to, dict_items, dict_keys.
  replace (limit <? 0) with true by (symmetry; apply Z.ltb_lt; lia).
  split; [|split; [|reflexivity]].
  - rewrite length_map, length_firstn. lia.
  - rewrite summary_ids, firstn_map. f_equal. f_equal. lia.
Qed.

Lemma list_pastes_negative_limit_witness :
  exists l,
    list_pastes default_config (-1) two_pastes_world = Return l two_pastes_world /\
    map Summary.id (Listing.pastes l) = [lit "aaaaaaaa"] /\
    Listing.total l = 2.
Proof.
  destruct (list_pastes_negative_limit default_config (-1) two_pastes_world)
    as (l & Hl & _ & Hids & Htotal); [lia|].
  exists l. split; [exact Hl|]. split; [rewrite Hids|rewrite Htotal];
    vm_compute; reflexivity.
Defined.

(** X12. A limit of at least the number of records lists every record, in
    index order, and [total] is then the length of the listing. *)
Theorem list_pastes_all cfg limit w :
  Z.of_nat (length (pastes w)) <= limit ->
  exists l,
    list_pastes cfg limit w = Return l w /\
    Listing.pastes l = map (summary cfg) (dict_items (pastes w)) /\
    map Summary.id (Listing.pastes l) = dict_keys (pastes w) /\
    Listing.total l = Z.of_nat (length (Listing.pastes l)).
Proof.
  intros Hlimit. eexists. split; [reflexivity|].
  cbn [Listing.pastes Listing.total].
  rewrite slice_to_nonneg by lia. unfold dict_items, dict_keys.
  rewrite firstn_all2 by lia.
  split; [reflexivity|]. split; [apply summary_ids|by rewrite length_map].
Qed.

Lemma list_pastes_all_witness :
  exists l,
    list_pastes default_config 50 two_pastes_world = Return l two_pastes_world /\
    map Summary.id (Listing.pastes l) = [lit "aaaaaaaa"; lit "bbbbbbbb"].
Proof.
  destruct (list_pastes_all default_config 50 two_pastes_world)
    as (l & Hl & _ & Hids & _); [vm_compute; discriminate|].
  exists l. split; [exact Hl|]. rewrite Hids. vm_compute. reflexivity.
Defined.

(** X13. Right after a successful create, a listing with room for every
    record ends with the summary of the new paste: its id, the [url] of the
    create response, the submitted title and language, [size] the length of
    the content, and the dates of the response. *)
Theorem create_then_list cfg rng fuel now data w resp w' limit :
  create_paste cfg rng fuel now data w = Return resp w' ->
  Z.of_nat (length (pastes w')) <= limit ->
  exists l,
    list_pastes cfg limit w' = Return l w' /\
    Listing.pastes l =
      map (summary cfg) (dict_items (pastes w)) ++
      [{| Summary.id := PasteResponse.id resp;
          Summary.url := PasteResponse.url resp;
          Summary.title := PasteCreate.title data;
          Summary.language := PasteCreate.language data;
          Summary.size := len (PasteCreate.content data);
          Summary.created_at := PasteResponse.created_at resp;
          Summary.expires_at := PasteResponse.expires_at resp |}] /\
    Listing.total l = Z.of_nat (length (pastes w)) + 1.
Proof.
  intros Hcreate Hlimit.
  destruct (create_paste_appends _ _ _ _ _ _ _ _ Hcreate) as [_ Happ].
  assert (PasteResponse.url resp
          = BASE_URL cfg ++ lit "/" ++ PasteResponse.id resp /\
          PasteResponse.created_at resp = now) as [Hurl Hnow].
  { pose proof Hcreate as H.
    pose proof Hcreate as (Hsize & Hspace & Hid & Hexp & Hc & _)%create_paste_Return.
    rewrite create_paste_valid, Hid, Hexp in Hcreate by done.
    rewrite (create_paste_Return_encodable _ _ _ _ _ _ _ _ H) in Hcreate.
    injection Hcreate as <- _. by split. }
  eexists. split; [reflexivity|]. cbn [Listing.pastes Listing.total].
  rewrite slice_to_nonneg by lia. unfold dict_items in *.
  rewrite firstn_all2 by lia. rewrite Happ, map_app, length_app. simpl.
  rewrite Hurl, Hnow. split; [reflexivity|lia].
Qed.

Lemma create_then_list_witness :
  exists resp w' l,
    create_paste default_config zeros 1 sample_now
      (PasteCreate.validate (plain_body (lit "one"))) initial_world
    = Return resp w' /\
    list_pastes default_config 50 w' = Return l w' /\
    map Summary.size (Listing.pastes l) = [3].
Proof.
  eexists _, _.
  destruct (create_then_list default_config zeros 1 sample_now
              (PasteCreate.validate (plain_body (lit "one"))) initial_world
              _ _ 50 eq_refl) as (l & Hl & Hp & _); [vm_compute; discriminate|].
  exists l. split; [reflexivity|]. split; [exact Hl|]. rewrite Hp.
  reflexivity.
Defined.

(** ** Counts *)

Lemma index_count_le_file_count w :
  sound w -> Z.of_nat (length (pastes w)) <= file_count w.
Proof.
  intros (Hwf & Hin & _). unfold file_count. apply inj_le.
  rewrite length_map_to_list, <- (size_dom (D := gset pystr)).
  rewrite <- (length_map fst (pastes w)).
  change (map fst (pastes w)) with (dict_keys (pastes w)).
  rewrite <- (size_list_to_set (C := gset pystr) _ Hwf).
  apply subseteq_size. intros k Hk%elem_of_list_to_set.
  by apply elem_of_dom, Hin, dict_contains_In.
Qed.

Lemma index_count_file_count w :
  sound w ->
  (forall k stored, paste_files w !! k = Some stored -> stored <> []) ->
  Z.of_nat (length (pastes w)) = file_count w.
Proof.
  intros (Hwf & Hin & Horph & _) Hfull. unfold file_count. f_equal.
  rewrite length_map_to_list, <- (size_dom (D := gset pystr)).
  assert (dom (paste_files w) = list_to_set (dict_keys (pastes w))) as ->.
  { apply set_eq. intros k. rewrite elem_of_dom, elem_of_list_to_set. split.
    - intros [stored Hf]. apply dict_contains_In.
      destruct (Horph k stored Hf) as [?| ->]; [done|]. by destruct (Hfull k [] Hf).
    - intros Hk%dict_contains_In. by apply Hin. }
  rewrite size_list_to_set by exact Hwf. unfold dict_keys.
  symmetry. apply length_map.
Qed.

Lemma length_dict_del {V} k (d : dict V) :
  dict_wf d -> dict_contains k d = true ->
  S (length (dict_del k d)) = length d.
Proof.
  unfold dict_wf, dict_keys, dict_del.
  induction d as [|[k' v] d IH]; simpl; [discriminate|].
  intros [Hk Hd]%NoDup_cons. destruct (str_eqb k k') eqn:E; simpl.
  - intros _. apply str_eqb_eq in E. subst k'. f_equal.
    change (List.filter _ d) with (dict_del k d).
    rewrite dict_del_absent; [reflexivity|].
    by apply dict_contains_false.
  - intros Hc. f_equal. by apply IH.
Qed.

(** X14. The root endpoint and the listing report the same number, the
    length of the index, and change nothing.  In every world the server can
    be in, that number is at most the number of content files on disk, and
    it is that number when no content file is empty. *)
Theorem paste_count_and_file_count cfg limit w :
  reachable cfg w ->
  exists r l,
    root cfg w = Return r w /\
    list_pastes cfg limit w = Return l w /\
    RootInfo.total_pastes r = Listing.total l /\
    RootInfo.max_size_bytes r = MAX_SIZE cfg /\
    Listing.total l = Z.of_nat (length (pastes w)) /\
    Listing.total l <= file_count w /\
    ((forall k stored, paste_files w !! k = Some stored -> stored <> []) ->
     Listing.total l = file_count w).
Proof.
  intros Hs%reachable_sound.
  eexists _, _. repeat (split; [reflexivity|]).
  cbn [Listing.total].
  split; [by apply index_count_le_file_count|by apply index_count_file_count].
Qed.

Lemma paste_count_and_file_count_witness :
  exists r,
    root default_config two_pastes_world = Return r two_pastes_world /\
    RootInfo.total_pastes r = 2 /\ 2 <= file_count two_pastes_world.
Proof.
  assert (reachable default_config two_pastes_world) as Hreach.
  { apply (serve_reachable default_config
             [Create zeros 1 sample_now (PasteCreate.validate (plain_body (lit "one")));
              Create ones 1 sample_now (PasteCreate.validate (plain_body (lit "two")))]
             initial_world); [constructor|reflexivity]. }
  destruct (paste_count_and_file_count default_config 50 two_pastes_world Hreach)
    as (r & l & Hr & _ & Hsame & _ & Hlen & Hle & _).
  exists r. split; [exact Hr|].
  assert (Listing.total l = 2) as H2 by (rewrite Hlen; reflexivity).
  split; [by rewrite Hsame|by rewrite <- H2].
Defined.

(** X15. A successful create raises the number of records in the index
    by one; a successful delete, and a read that burns, lower it by one. *)
Theorem paste_count_steps cfg w w' :
  reachable cfg w ->
  (forall rng fuel now data resp,
     create_paste cfg rng fuel now data w = Return resp w' ->
     Z.of_nat (length (pastes w')) = Z.of_nat (length (pastes w)) + 1) /\
  (forall paste_id,
     delete_paste paste_id w = Return paste_id w' ->
     Z.of_nat (length (pastes w')) = Z.of_nat (length (pastes w)) - 1) /\
  (forall paste_id text m,
     get_paste_raw paste_id w = Return text w' ->
     dict_get paste_id (pastes w) = Some m ->
     Z.of_nat (length (pastes w')) =
     Z.of_nat (length (pastes w)) - (if burn_after_read m then 1 else 0)).
Proof.
  intros [Hwf _]%reachable_sound. split; [|split].
  - intros rng fuel now data resp [_ Happ]%create_paste_appends.
    unfold dict_items in Happ. rewrite Happ, length_app. simpl. lia.
  - intros paste_id. unfold delete_paste.
    destruct (dict_contains paste_id (pastes w)) eqn:Hc; simpl; [|discriminate].
    intros [= <-]. simpl.
    pose proof (length_dict_del paste_id _ Hwf Hc). lia.
  - intros paste_id text m Hraw Hget.
    assert (exists stored, paste_files w !! paste_id = Some stored)
      as [stored Hf].
    { unfold get_paste_raw, load_content in Hraw.
      rewrite (dict_get_contains _ _ _ Hget) in Hraw. simpl in Hraw.
      destruct (paste_files w !! paste_id); [by eexists|discriminate]. }
    rewrite (get_paste_raw_live _ _ _ _ Hget Hf) in Hraw.
    injection Hraw as _ <-. destruct (burn_after_read m); simpl; [|lia].
    pose proof (length_dict_del paste_id _ Hwf (dict_get_contains _ _ _ Hget)).
    lia.
Qed.

Lemma paste_count_steps_witness :
  exists w',
    delete_paste (lit "aaaaaaaa") two_pastes_world = Return (lit "aaaaaaaa") w' /\
    Z.of_nat (length (pastes w')) = 1.
Proof.
  assert (reachable default_config two_pastes_world) as Hreach.
  { apply (serve_reachable default_config
             [Create zeros 1 sample_now (PasteCreate.validate (plain_body (lit "one")));
              Create ones 1 sample_now (PasteCreate.validate (plain_body (lit "two")))]
             initial_world); [constructor|reflexivity]. }
  exists (burn (lit "aaaaaaaa") two_pastes_world).
  assert (delete_paste (lit "aaaaaaaa") two_pastes_world
          = Return (lit "aaaaaaaa") (burn (lit "aaaaaaaa") two_pastes_world))
    as Hdel by (vm_compute; reflexivity).
  split; [exact Hdel|].
  destruct (paste_count_steps default_config two_pastes_world
              (burn (lit "aaaaaaaa") two_pastes_world) Hreach) as (_ & Hd & _).
  rewrite (Hd _ Hdel). reflexivity.
Defined.

(** ** What every live record looks like *)

(** Where the records of the world after a request come from: each was
    there before, with the same file, or is the one a create just made,
    whose file holds the content or, when the write failed, nothing. *)
Lemma handle_records cfg r w w' :
  sound w ->
  handle cfg r w = Some w' ->
  forall k m, (k, m) ∈ pastes w' ->
    ((k, m) ∈ pastes w /\ paste_files w' !! k = paste_files w !! k) \/
    (exists rng fuel now data expires,
       r = Create rng fuel now data /\
       len (PasteCreate.content data) <= MAX_SIZE cfg /\
       forallb isspace (PasteCreate.content data) = false /\
       generate_id fuel 8 rng (pastes w) = Some k /\
       m = new_meta now expires data /\
       (paste_files w' !! k = Some (PasteCreate.content data) \/
        paste_files w' !! k = Some [])).
Proof.
  intros Hs Hh k m Hin.
  assert (forall k0 w0, (k, m) ∈ pastes (burn k0 w0) ->
            (k, m) ∈ pastes w0 /\
            paste_files (burn k0 w0) !! k = paste_files w0 !! k) as Hburn.
  { intros k0 w0 [Hin0 Hne]%list_elem_of_In%filter_In. simpl in Hne.
    apply negb_true_iff, str_eqb_neq in Hne.
    split; [by apply list_elem_of_In|]. simpl. by apply lookup_delete_ne. }
  assert (forall id m0 text,
            dict_contains id (pastes w) = false ->
            (k, m) ∈ pastes (write_file id text (insert_record id m0 w)) ->
            ((k, m) ∈ pastes w /\
             paste_files (write_file id text (insert_record id m0 w)) !! k
             = paste_files w !! k) \/
            (k = id /\ m = m0)) as Hwrite.
  { intros id m0 text Hfresh. simpl. rewrite (dict_set_fresh _ _ _ Hfresh).
    intros [Hold|Hnew%list_elem_of_singleton]%elem_of_app.
    - left. split; [exact Hold|]. apply lookup_insert_ne. intros <-.
      apply dict_contains_elem in Hold. congruence.
    - right. by injection Hnew as -> ->. }
  destruct r as [rng fuel now data|limit|k0|k0|k0|now]; simpl in Hh.
  - destruct (create_paste cfg rng fuel now data w) as [resp w1|e w1|] eqn:E;
      simpl in Hh; [| |discriminate]; injection Hh as <-.
    + pose proof E as (Hsize & Hspace & Hid & _ & _ & Hw1)%create_paste_Return.
      subst w1.
      destruct (Hwrite (PasteResponse.id resp)
                  (new_meta now (PasteResponse.expires_at resp) data)
                  (PasteCreate.content data)
                  (generate_id_fresh _ _ _ _ _ Hid) Hin)
        as [Hold|[-> ->]]; [by left|].
      right. exists rng, fuel, now, data, (PasteResponse.expires_at resp).
      repeat split; [done..|]. left. apply lookup_insert_eq.
    + apply create_paste_Raise in E
        as [[-> _]|(_ & Hsize & Hspace & _ & id & expires & Hid & _ & ->)];
        [by left|].
      destruct (Hwrite id (new_meta now expires data) []
                  (generate_id_fresh _ _ _ _ _ Hid) Hin)
        as [Hold|[-> ->]]; [by left|].
      right. exists rng, fuel, now, data, expires.
      repeat split; [done..|]. right. apply lookup_insert_eq.
  - injection Hh as <-. by left.
  - left. apply get_paste_raw_world in Hh as [->|[->|[_ ->]]]; [done|done|].
    by apply Hburn in Hin.
  - left. apply get_paste_html_world in Hh as [->|[->|[_ ->]]]; [done|done|].
    by apply Hburn in Hin.
  - left. apply delete_paste_world in Hh as [->|[_ ->]]; [done|].
    by apply Hburn in Hin.
  - left. injection Hh as <-.
    destruct Hs as (Hwf & _ & _ & rest & Hrest & _).
    assert (dict_wf (snapshot_members w)) as Hwfs
      by (apply (dict_wf_app_l _ rest); by rewrite <- Hrest).
    destruct (startup_loaded now w Hwfs) as (Hp & Hf & _).
    rewrite Hp in Hin.
    apply list_elem_of_In, filter_In in Hin as [Hin Hexp]. simpl in Hexp.
    apply negb_true_iff in Hexp. apply list_elem_of_In in Hin.
    split; [rewrite Hrest; apply elem_of_app; by left|]. rewrite Hf.
    rewrite (dict_contains_filter_get (fun kv => is_expired now (snd kv))
               _ k m Hwfs (dict_In_get _ _ _ Hwfs Hin)).
    simpl. by rewrite Hexp.
Qed.

Lemma utf8_len_le_4_len (s : pystr) : utf8_len s <= 4 * len s.
Proof.
  unfold len, utf8_len. induction s as [|c t IH]; [simpl; lia|].
  cbn [length fold_right]. rewrite Nat2Z.inj_succ.
  assert (utf8_width c <= 4); [|lia]. unfold utf8_width.
  destruct (c <? 0x80)%N, (c <? 0x800)%N, (c <? 0x10000)%N; lia.
Qed.

(** X16. Every id in the index, in every world the server can be in, is
    eight characters long and made of lowercase letters and digits only. *)
Theorem live_ids_well_formed cfg w :
  reachable cfg w ->
  forall k, dict_contains k (pastes w) = true ->
    length k = 8%nat /\ (forall c, c ∈ k -> c ∈ alphabet).
Proof.
  intros Hreach.
  assert (forall k m, (k, m) ∈ pastes w -> is_valid_id 8 k = true) as Hvalid.
  { induction Hreach as [|r w w' Hreach IH Hstep].
    - intros k m Hin. by apply elem_of_nil in Hin.
    - intros k m Hin. apply reachable_sound in Hreach.
      destruct (handle_records cfg r w w' Hreach Hstep k m Hin)
        as [[Hold _]|(rng & fuel & now & data & expires & _ & _ & _ & Hid & _)].
      + by apply (IH k m).
      + by apply generate_id_valid in Hid. }
  intros k [m Hget]%dict_contains_get. apply dict_get_In in Hget.
  specialize (Hvalid k m Hget). unfold is_valid_id in Hvalid.
  apply andb_true_iff in Hvalid as [Hlen%Nat.eqb_eq Hall].
  split; [exact Hlen|]. intros c Hc%list_elem_of_In.
  rewrite forallb_forall in Hall.
  apply Hall in Hc as (c' & Hin & ->%N.eqb_eq)%existsb_exists.
  by apply list_elem_of_In.
Qed.

Lemma live_ids_well_formed_witness :
  length (lit "bbbbbbbb") = 8%nat.
Proof.
  assert (reachable default_config two_pastes_world) as Hreach.
  { apply (serve_reachable default_config
             [Create zeros 1 sample_now (PasteCreate.validate (plain_body (lit "one")));
              Create ones 1 sample_now (PasteCreate.validate (plain_body (lit "two")))]
             initial_world); [constructor|reflexivity]. }
  apply (live_ids_well_formed default_config two_pastes_world Hreach
           (lit "bbbbbbbb")).
  vm_compute. reflexivity.
Defined.

(** X17. In every world the server can be in, every record of the index
    has a content file, and that file is either empty - a create whose
    content write failed left it - or holds a text that is not blank and
    whose length in characters is the record's [size].  The [size] is at
    most [MAX_SIZE], so the file has at most [MAX_SIZE] characters and four
    times as many bytes of UTF-8. *)
Theorem record_describes_file cfg w :
  reachable cfg w ->
  forall k m, dict_get k (pastes w) = Some m ->
    exists stored,
      paste_files w !! k = Some stored /\
      (stored = [] \/
       (size m = len stored /\ forallb isspace stored = false)) /\
      len stored <= size m /\
      size m <= MAX_SIZE cfg /\
      utf8_len stored <= 4 * MAX_SIZE cfg.
Proof.
  intros Hreach.
  assert (forall k m, (k, m) ∈ pastes w ->
            0 <= size m <= MAX_SIZE cfg /\
            exists stored, paste_files w !! k = Some stored /\
              (stored = [] \/
               (size m = len stored /\ forallb isspace stored = false))) as Hrec.
  { induction Hreach as [|r w w' Hreach IH Hstep].
    - intros k m Hin. by apply elem_of_nil in Hin.
    - intros k m Hin. apply reachable_sound in Hreach.
      destruct (handle_records cfg r w w' Hreach Hstep k m Hin)
        as [[Hold Hf]|(rng & fuel & now & data & expires & _ & Hsize & Hspace
                        & _ & -> & Hf)].
      + destruct (IH k m Hold) as (Hsz & stored & Hfw & Hcase).
        split; [exact Hsz|]. exists stored. split; [|exact Hcase].
        etransitivity; [exact Hf|exact Hfw].
      + split; [simpl; unfold len in *; lia|]. destruct Hf as [Hf|Hf].
        * exists (PasteCreate.content data). split; [exact Hf|]. by right.
        * exists []. split; [exact Hf|]. by left. }
  intros k m Hget%dict_get_In.
  destruct (Hrec k m Hget) as (Hsz & stored & Hf & Hcase).
  exists stored. split; [exact Hf|]. split; [exact Hcase|].
  assert (len stored <= size m) as Hle.
  { destruct Hcase as [->|[Heq _]]; [unfold len; simpl; lia|lia]. }
  split; [exact Hle|]. split; [lia|].
  pose proof (utf8_len_le_4_len stored). lia.
Qed.

Lemma record_describes_file_witness :
  exists stored,
    paste_files two_pastes_world !! lit "bbbbbbbb" = Some stored /\
    len stored <= 3.
Proof.
  assert (reachable default_config two_pastes_world) as Hreach.
  { apply (serve_reachable default_config
             [Create zeros 1 sample_now (PasteCreate.validate (plain_body (lit "one")));
              Create ones 1 sample_now (PasteCreate.validate (plain_body (lit "two")))]
             initial_world); [constructor|reflexivity]. }
  destruct (record_describes_file default_config two_pastes_world Hreach
              (lit "bbbbbbbb")
              (new_meta sample_now (Some (sample_now + DEFAULT_EXPIRY_HOURS * HOUR))
                 (PasteCreate.validate (plain_body (lit "two")))))
    as (stored & Hf & _ & Hle & _); [vm_compute; reflexivity|].
  exists stored. split; [exact Hf|exact Hle].
Defined.

(** ** What a raw read can return *)

Lemma universal_newlines_bounded n (s : pystr) :
  (length s <= n)%nat ->
  no_CR (universal_newlines s) = true /\
  (length (universal_newlines s) <= length s)%nat.
Proof.
  revert s. induction n as [|n IH]; intros s Hn.
  - destruct s; [by split|simpl in Hn; lia].
  - destruct s as [|c t]; [by split|]. cbn [universal_newlines].
    simpl in Hn. destruct (c =? CR)%N eqn:Hc.
    + destruct t as [|c' t'].
      * split; [reflexivity|simpl; lia].
      * destruct (c' =? LF)%N.
        -- destruct (IH t') as [H1 H2]; [simpl in Hn; lia|].
           split; [exact H1|simpl; lia].
        -- destruct (IH (c' :: t')) as [H1 H2]; [lia|].
           split; [exact H1|]. cbn [length] in *. lia.
    + destruct (IH t) as [H1 H2]; [lia|].
      split; [|cbn [length]; lia].
      unfold no_CR in *. cbn [forallb]. by rewrite Hc, H1.
Qed.

(** X18. The text a raw read returns never contains a carriage return and
    is never longer than the stored text; it is the stored text itself when
    that has no carriage return, and reading it back through the same
    translation changes nothing more. *)
Theorem raw_read_has_no_carriage_return paste_id w text w' :
  get_paste_raw paste_id w = Return text w' ->
  exists stored,
    paste_files w !! paste_id = Some stored /\
    text = universal_newlines stored /\
    no_CR text = true /\
    (length text <= length stored)%nat /\
    (no_CR stored = true -> text = stored) /\
    universal_newlines text = text.
Proof.
  unfold get_paste_raw, load_content.
  destruct (dict_contains paste_id (pastes w)); simpl; [|discriminate].
  destruct (paste_files w !! paste_id) as [stored|]; simpl; [|discriminate].
  intros Hret. assert (text = universal_newlines stored) as ->.
  { destruct (dict_get paste_id (pastes w)) as [m|]; [|discriminate].
    destruct (burn_after_read m); by injection Hret as <-. }
  exists stored. split; [reflexivity|]. split; [reflexivity|].
  destruct (universal_newlines_bounded (length stored) stored) as [Hcr Hlen];
    [lia|].
  split; [exact Hcr|]. split; [exact Hlen|]. split.
  - apply universal_newlines_no_CR.
  - by apply universal_newlines_no_CR.
Qed.

Lemma raw_read_has_no_carriage_return_witness :
  exists resp w1 text w2,
    create_paste default_config zeros 1 sample_now
      (PasteCreate.validate (plain_body crlf_text)) initial_world
    = Return resp w1 /\
    get_paste_raw (PasteResponse.id resp) w1 = Return text w2 /\
    no_CR text = true.
Proof.
  eexists _, _, _, _. split; [reflexivity|].
  assert (get_paste_raw (lit "aaaaaaaa")
            (store_paste (lit "aaaaaaaa")
               (new_meta sample_now (Some (sample_now + DEFAULT_EXPIRY_HOURS * HOUR))
                  (PasteCreate.validate (plain_body crlf_text)))
               crlf_text initial_world)
          = Return (lit "a" ++ [LF] ++ lit "b")
              (emit (EvReadContent (lit "aaaaaaaa"))
                 (store_paste (lit "aaaaaaaa")
                    (new_meta sample_now
                       (Some (sample_now + DEFAULT_EXPIRY_HOURS * HOUR))
                       (PasteCreate.validate (plain_body crlf_text)))
                    crlf_text initial_world))) as Hread
    by (vm_compute; reflexivity).
  split; [exact Hread|].
  destruct (raw_read_has_no_carriage_return _ _ _ _ Hread)
    as (stored & _ & _ & Hcr & _).
  exact Hcr.
Defined.

(** ** Snapshot *)

(** X19. In every world the server can be in, the members of the snapshot
    file are an initial segment of the index, and loading them gives them
    back in order; the records of the index that come after are those of
    creates whose content write failed since the snapshot was written, each
    with an empty content file.  After a create that returned, the snapshot
    is the whole index. *)
Theorem snapshot_tracks_index cfg w :
  reachable cfg w ->
  (exists rest,
     pastes w = snapshot_members w ++ rest /\
     forall k m, (k, m) ∈ rest -> paste_files w !! k = Some []) /\
  json_loads (snapshot_members w) = snapshot_members w /\
  (forall rng fuel now data resp w',
     create_paste cfg rng fuel now data w = Return resp w' ->
     index_file w' = Some (dict_items (pastes w'))).
Proof.
  intros (Hwf & _ & _ & rest & Hrest & Hempty)%reachable_sound.
  split; [by exists rest|]. split.
  - unfold json_loads. apply dict_of_items_wf_id.
    apply (dict_wf_app_l _ rest). by rewrite <- Hrest.
  - by intros rng fuel now data resp w' (_ & _ & _ & _ & _ & ->)%create_paste_Return.
Qed.

Lemma snapshot_tracks_index_witness :
  exists rest, pastes two_pastes_world = snapshot_members two_pastes_world ++ rest.
Proof.
  assert (reachable default_config two_pastes_world) as Hreach.
  { apply (serve_reachable default_config
             [Create zeros 1 sample_now (PasteCreate.validate (plain_body (lit "one")));
              Create ones 1 sample_now (PasteCreate.validate (plain_body (lit "two")))]
             initial_world); [constructor|reflexivity]. }
  destruct (snapshot_tracks_index default_config two_pastes_world Hreach)
    as ((rest & Hrest & _) & _).
  by exists rest.
Defined.

(** ** More on ids, restarts and expiry *)

(** X20. The id the loop returns is the first free candidate: it is the
    candidate of some round within the fuel, and the candidate of every
    earlier round is in the index. *)
Theorem generate_id_first_free fuel id_length rng (d : dict meta) paste_id :
  generate_id fuel id_length rng d = Some paste_id ->
  exists n,
    (n < fuel)%nat /\
    candidate id_length rng n = paste_id /\
    dict_contains paste_id d = false /\
    forall j, (j < n)%nat ->
      dict_contains (candidate id_length rng j) d = true.
Proof.
  revert rng. induction fuel as [|fuel IH]; intros rng; [discriminate|].
  cbn [generate_id].
  destruct (dict_contains (draw id_length rng) d) eqn:E; simpl.
  - intros (n & Hn & Hcand & Hfree & Hbefore)%IH.
    exists (S n). split; [lia|]. rewrite candidate_S.
    split; [exact Hcand|]. split; [exact Hfree|].
    intros [|j] Hj; [by rewrite candidate_0|].
    rewrite candidate_S. apply Hbefore. lia.
  - intros [= <-]. exists O. split; [lia|]. rewrite candidate_0.
    split; [reflexivity|]. split; [exact E|]. intros j Hj. lia.
Qed.

Lemma generate_id_first_free_witness :
  exists n,
    (n < 2)%nat /\
    candidate 8 (counting_rng 8) n = lit "baaaaaaa" /\
    dict_contains (candidate 8 (counting_rng 8) 0) (pastes two_pastes_world)
      = true.
Proof.
  destruct (generate_id_first_free 2 8 (counting_rng 8)
              (pastes two_pastes_world) (lit "baaaaaaa"))
    as (n & Hn & Hcand & _ & Hbefore); [vm_compute; reflexivity|].
  exists n. split; [exact Hn|]. split; [exact Hcand|].
  apply Hbefore. destruct n as [|n]; [|lia].
  vm_compute in Hcand. discriminate.
Defined.

Lemma filter_filter_weaker {A} (p q : A -> bool) (l : list A) :
  (forall x, q x = true -> p x = true) ->
  List.filter q (List.filter p l) = List.filter q l.
Proof.
  intros Hpq. induction l as [|x l IH]; simpl; [reflexivity|].
  destruct (p x) eqn:Hp; simpl.
  - destruct (q x); by rewrite IH.
  - destruct (q x) eqn:Hq; [|exact IH].
    apply Hpq in Hq. congruence.
Qed.

(** X21. A second restart at the same or a later time leaves the index
    and the content files that one restart at the later time leaves: what
    the first sweep removed, the later one would have removed as well. *)
Theorem restart_twice cfg now now' w :
  reachable cfg w ->
  now <= now' ->
  pastes (startup now' (startup now w)) = pastes (startup now' w) /\
  paste_files (startup now' (startup now w)) = paste_files (startup now' w).
Proof.
  intros (Hwf & _ & _ & rest & Hrest & _)%reachable_sound Hle.
  set (snap := snapshot_members w) in *.
  assert (dict_wf snap) as Hwfs
    by (apply (dict_wf_app_l _ rest); by rewrite <- Hrest).
  destruct (startup_loaded now w Hwfs) as (Hp & Hf & Hm).
  destruct (startup_loaded now' w Hwfs) as (Hp' & Hf' & _).
  fold snap in Hp, Hf, Hp', Hf'.
  assert (dict_wf (snapshot_members (startup now w))) as Hwf1
    by (rewrite Hm, Hp; by apply dict_wf_filter).
  destruct (startup_loaded now' (startup now w) Hwf1) as (Hp1 & Hf1 & _).
  rewrite Hm, Hp in Hp1, Hf1.
  assert (forall m, is_expired now m = true -> is_expired now' m = true) as Hmono.
  { intros m. unfold is_expired. destruct (expires_at m); [|done].
    rewrite !Z.ltb_lt. lia. }
  split.
  - rewrite Hp1, Hp'. apply filter_filter_weaker.
    intros [k m] Hq. simpl in *. apply negb_true_iff in Hq.
    apply negb_true_iff. destruct (is_expired now m) eqn:E; [|reflexivity].
    apply Hmono in E. congruence.
  - apply map_eq. intros k. rewrite Hf1, Hf', Hf.
    destruct (dict_get k snap) as [m|] eqn:Hget.
    + rewrite (dict_contains_filter_get (fun kv => is_expired now (snd kv))
                 _ k m Hwfs Hget).
      rewrite (dict_contains_filter_get (fun kv => is_expired now' (snd kv))
                 _ k m Hwfs Hget).
      simpl. destruct (is_expired now m) eqn:E.
      * rewrite (Hmono m E).
        by destruct (dict_contains k (List.filter _ (List.filter _ snap))).
      * assert (dict_get k
                  (List.filter (fun kv => negb (is_expired now (snd kv))) snap)
                = Some m) as Hget1.
        { apply dict_get_filter; [exact Hwfs|exact Hget|]. simpl. by rewrite E. }
        rewrite (dict_contains_filter_get (fun kv => is_expired now' (snd kv))
                   _ k m (dict_wf_filter _ _ Hwfs) Hget1).
        reflexivity.
    + apply dict_get_None in Hget.
      assert (forall p, dict_contains k (List.filter p snap) = false) as Hno.
      { intros p. apply not_true_is_false. intros H%dict_contains_filter.
        congruence. }
      rewrite !Hno.
      assert (dict_contains k
                (List.filter (fun kv => is_expired now' (snd kv))
                   (List.filter (fun kv => negb (is_expired now (snd kv)))
                      snap)) = false) as ->; [|reflexivity].
      apply not_true_is_false.
      intros H%dict_contains_filter%dict_contains_filter. congruence.
Qed.

Lemma restart_twice_witness :
  pastes (startup (sample_now + 2 * HOUR) (startup sample_now stale_world))
  = pastes (startup (sample_now + 2 * HOUR) stale_world).
Proof.
  assert (reachable default_config stale_world) as Hreach.
  { apply (serve_reachable default_config
             [Create zeros 1 sample_now
                (PasteCreate.validate (hours_body (lit "old") (Some 1)));
              Create ones 1 sample_now
                (PasteCreate.validate (plain_body (lit "new")))]
             initial_world); [constructor|reflexivity]. }
  apply (restart_twice default_config sample_now (sample_now + 2 * HOUR)
           stale_world Hreach).
  unfold HOUR. lia.
Defined.

(** X22. A body that sends [expires_in_hours] as [null], zero or a
    negative number makes a paste without [expires_at]: after a restart at
    any time it is still in the index and the readers still serve it. *)
Theorem paste_without_expiry_survives cfg rng fuel now body w resp w1 now' :
  reachable cfg w ->
  create_paste cfg rng fuel now (PasteCreate.validate body) w = Return resp w1 ->
  (PasteCreate.body_expires_in_hours body = Some None \/
   exists h, PasteCreate.body_expires_in_hours body = Some (Some h) /\ h <= 0) ->
  PasteResponse.expires_at resp = None /\
  dict_contains (PasteResponse.id resp) (pastes (startup now' w1)) = true /\
  exists w2,
    get_paste_raw (PasteResponse.id resp) (startup now' w1)
    = Return (universal_newlines (PasteCreate.body_content body)) w2.
Proof.
  intros Hreach Hcreate Hbody.
  assert (reachable cfg w1) as Hreach1.
  { apply (reachable_step cfg
             (Create rng fuel now (PasteCreate.validate body)) w w1 Hreach).
    simpl. by rewrite Hcreate. }
  apply reachable_sound in Hreach1 as [Hc _].
  pose proof Hcreate as Hret.
  apply create_paste_Return in Hret as (_ & _ & _ & Hexp & _ & Hw1).
  assert (index_file w1 = Some (json_dumps (pastes w1))) as Hs by (by subst w1).
  apply compute_expires_at_Some in Hexp.
  assert (PasteResponse.expires_at resp = None) as Hnone.
  { rewrite Hexp. cbn [PasteCreate.expires_in_hours PasteCreate.validate].
    destruct Hbody as [->|(h & -> & Hh)]; [reflexivity|].
    by replace (0 <? h) with false by (symmetry; apply Z.ltb_ge; lia). }
  split; [exact Hnone|].
  set (m := new_meta now (PasteResponse.expires_at resp)
              (PasteCreate.validate body)) in *.
  assert (dict_get (PasteResponse.id resp) (pastes w1) = Some m) as Hget
    by (subst w1; apply dict_get_set_eq).
  assert (paste_files w1 !! PasteResponse.id resp
          = Some (PasteCreate.body_content body)) as Hfile
    by (subst w1; apply lookup_insert_eq).
  pose proof (startup_record now' w1 _ m Hc Hs Hget) as H.
  unfold is_expired in H. subst m. cbn [expires_at new_meta] in H.
  rewrite Hnone in H. destruct H as [Hget' Hfile']. rewrite Hfile in Hfile'.
  split; [by apply (dict_get_contains _ _ _ Hget')|].
  rewrite (get_paste_raw_live _ _ _ _ Hget' Hfile'). by eexists.
Qed.

Lemma paste_without_expiry_survives_witness :
  exists resp w1,
    create_paste default_config zeros 1 sample_now
      (PasteCreate.validate (hours_body (lit "keep") None)) initial_world
    = Return resp w1 /\
    dict_contains (PasteResponse.id resp)
      (pastes (startup DATETIME_MAX w1)) = true.
Proof.
  eexists _, _. split; [reflexivity|].
  destruct (paste_without_expiry_survives default_config zeros 1 sample_now
              (hours_body (lit "keep") None) initial_world _ _ DATETIME_MAX
              (reachable_initial default_config) eq_refl)
    as (_ & Hin & _); [by left|].
  exact Hin.
Defined.
